(** * generate.py: the line-delimited text-generation service

    A shallow embedding of [src/generate.py] (the [main] function and the
    pieces of the Python runtime it touches) together with the properties
    of its request/response loop.

    Layout:
    - [Py]        : Python values, strings, exceptions, [str.strip], [json.dumps];
    - [Stream]    : a buffered text channel ([sys.stdout]);
    - the process state and the monad of computations that may raise;
    - [Demo]      : one concrete environment (decoder, loaders, generator);
    - [Generate]  : [main] itself, over an arbitrary environment;
    - [PyFacts], [StreamFacts], [Properties]: the lemmas and the theorems;
    - [Coverage]  : whole runs on any input, the generator's part of a line,
                    buffering, and reading an answer back;
    - [Instances], [FurtherInstances]: [main] evaluated in the [Demo]
                    environment. *)

From Stdlib Require Import String Ascii List NArith ZArith Bool Lia.
Import ListNotations.

Set Implicit Arguments.
Set Warnings "-register-all".

(* ================================================================== *)
(** ** Python values and strings *)

Module Py.

Local Open Scope string_scope.
Local Open Scope list_scope.
Local Open Scope N_scope.

(** A Python [str] is a sequence of Unicode code points. *)
Definition pystr := list N.

Definition str_of (s : string) : pystr :=
  map N_of_ascii (list_ascii_of_string s).

Definition LF : N := 10.
Definition CR : N := 13.
Definition DQUOTE : N := 34.
Definition BACKSLASH : N := 92.

(** [dq s] is the text [s] between two double-quote characters. *)
Definition dq (s : string) : pystr := DQUOTE :: str_of s ++ [DQUOTE].

Fixpoint str_eqb (a b : pystr) : bool :=
  match a, b with
  | [], [] => true
  | x :: a', y :: b' => N.eqb x y && str_eqb a' b'
  | _, _ => false
  end.

(** [Py_UNICODE_ISSPACE]: the code points [str.strip()] removes. *)
Definition py_isspace (c : N) : bool :=
  ((0x09 <=? c) && (c <=? 0x0D)) || ((0x1C <=? c) && (c <=? 0x20))
  || (c =? 0x85) || (c =? 0xA0) || (c =? 0x1680)
  || ((0x2000 <=? c) && (c <=? 0x200A))
  || (c =? 0x2028) || (c =? 0x2029) || (c =? 0x202F)
  || (c =? 0x205F) || (c =? 0x3000).

Fixpoint lstrip (s : pystr) : pystr :=
  match s with
  | c :: s' => if py_isspace c then lstrip s' else s
  | [] => []
  end.

Definition rstrip (s : pystr) : pystr := rev (lstrip (rev s)).

(** [s.strip()] with no argument. *)
Definition strip (s : pystr) : pystr := rstrip (lstrip s).

(** The values [json.loads] can produce.  A float is carried by its
    [repr]; the program never looks inside one. *)
Inductive pyval : Type :=
| PNone
| PBool (b : bool)
| PInt (n : Z)
| PFloat (repr : pystr)
| PStr (s : pystr)
| PList (l : list pyval)
| PDict (d : list (pystr * pyval)).

(** [type(v).__name__] *)
Definition type_name (v : pyval) : string :=
  match v with
  | PNone => "NoneType"
  | PBool _ => "bool"
  | PInt _ => "int"
  | PFloat _ => "float"
  | PStr _ => "str"
  | PList _ => "list"
  | PDict _ => "dict"
  end.

Definition is_str (v : pyval) : bool :=
  match v with PStr _ => true | _ => false end.

Definition is_dict (v : pyval) : bool :=
  match v with PDict _ => true | _ => false end.

(** An instance of [Exception] (what [except Exception] catches): its class
    and the text [str(e)].  [KeyboardInterrupt] and [SystemExit], which are
    not failures of an operation but requests to leave, are not values of
    this type. *)
Record exn : Type := Exception { exc_class : string; exc_str : pystr }.

Inductive result (A : Type) : Type :=
| Ok (a : A)
| Raise (e : exn).
Arguments Ok {A} a.
Arguments Raise {A} e.

(** [AttributeError: 'T' object has no attribute 'a'] *)
Definition AttributeError (ty attr : string) : exn :=
  Exception "AttributeError"
    (str_of "'" ++ str_of ty ++ str_of "' object has no attribute '"
       ++ str_of attr ++ str_of "'").

(** [KeyError(k)] for a [str] key without quotes or escapes in it:
    [str(e)] is [repr(k)]. *)
Definition KeyError (key : string) : exn :=
  Exception "KeyError" (str_of "'" ++ str_of key ++ str_of "'").

(** Lookup in a dict with [str] keys. *)
Fixpoint dict_lookup {V : Type} (key : pystr) (d : list (pystr * V)) : option V :=
  match d with
  | [] => None
  | (k, v) :: d' => if str_eqb k key then Some v else dict_lookup key d'
  end.

(** [data.get(key, default)] *)
Definition py_get (data : pyval) (key : pystr) (default : pyval) : result pyval :=
  match data with
  | PDict d =>
      Ok (match dict_lookup key d with Some v => v | None => default end)
  | v => Raise (AttributeError (type_name v) "get")
  end.

(** [value.strip()] *)
Definition py_strip (value : pyval) : result pystr :=
  match value with
  | PStr s => Ok (strip s)
  | v => Raise (AttributeError (type_name v) "strip")
  end.

(** [d[key]] on a dict with [str] keys and values. *)
Definition py_getitem (d : list (pystr * pystr)) (key : string) : result pystr :=
  match dict_lookup (str_of key) d with
  | Some v => Ok v
  | None => Raise (KeyError key)
  end.

(** *** [json.dumps] (default options: [ensure_ascii=True], separators
    [", "] and [": "]) on a dict whose keys and values are [str]. *)

Definition hex_digit (d : N) : N :=
  if d <? 10 then 48 + d else 87 + d.

(** ["\\u{0:04x}".format(n)] for [n < 0x10000] *)
Definition u_escape (n : N) : pystr :=
  [BACKSLASH; 117;
   hex_digit ((n / 4096) mod 16); hex_digit ((n / 256) mod 16);
   hex_digit ((n / 16) mod 16); hex_digit (n mod 16)].

(** The replacement [py_encode_basestring_ascii] makes for one character. *)
Definition escape_char (c : N) : pystr :=
  if c =? BACKSLASH then [BACKSLASH; BACKSLASH]
  else if c =? DQUOTE then [BACKSLASH; DQUOTE]
  else if c =? 8 then [BACKSLASH; 98]
  else if c =? 12 then [BACKSLASH; 102]
  else if c =? 10 then [BACKSLASH; 110]
  else if c =? 13 then [BACKSLASH; 114]
  else if c =? 9 then [BACKSLASH; 116]
  else if (32 <=? c) && (c <=? 126) then [c]
  else if c <? 0x10000 then u_escape c
  else
    let n := c - 0x10000 in
    u_escape (N.lor 0xd800 (N.land (N.shiftr n 10) 0x3ff))
      ++ u_escape (N.lor 0xdc00 (N.land n 0x3ff)).

Definition py_encode_basestring_ascii (s : pystr) : pystr :=
  DQUOTE :: flat_map escape_char s ++ [DQUOTE].

Fixpoint join (sep : pystr) (items : list pystr) : pystr :=
  match items with
  | [] => []
  | [x] => x
  | x :: rest => x ++ sep ++ join sep rest
  end.

Definition json_item (kv : pystr * pystr) : pystr :=
  py_encode_basestring_ascii (fst kv) ++ str_of ": "
    ++ py_encode_basestring_ascii (snd kv).

Definition json_dumps (d : list (pystr * pystr)) : pystr :=
  str_of "{" ++ join (str_of ", ") (map json_item d) ++ str_of "}".

End Py.
Export Py.

(* ================================================================== *)
(** ** The output channel *)

Module Stream.

(** [sys.stdout]: a text stream over a buffered writer.  [pending] is
    what has been written and not yet handed to the consumer; [chunks] are
    the hand-overs made so far, oldest first.  The stream is line buffered
    when it is a terminal and block buffered when it is a pipe or a file
    (or when Python runs with [-u], line buffered again). *)
Record ostream : Type := OStream {
  line_buffering : bool;
  buffer_size : N;
  pending : pystr;
  chunks : list pystr
}.

Definition fresh (lb : bool) (size : N) : ostream := OStream lb size [] [].

(** [f.flush()] *)
Definition flush (o : ostream) : ostream :=
  match pending o with
  | [] => o
  | p => OStream (line_buffering o) (buffer_size o) [] (chunks o ++ [p])
  end.

Definition has_newline (s : pystr) : bool :=
  existsb (N.eqb LF) s || existsb (N.eqb CR) s.

(** The stream with [p] as its pending text. *)
Definition hold (p : pystr) (o : ostream) : ostream :=
  OStream (line_buffering o) (buffer_size o) p (chunks o).

(** [f.write(s)], as [TextIOWrapper.write] goes about it.  When [s] would
    take the pending text past the size of the buffer, what is pending is
    handed over first and [s] is kept; otherwise [s] joins the pending text.
    Then everything pending is handed over when the stream is line buffered
    and [s] holds a line end, or when the pending text has reached the size
    of the buffer.  (The buffered writer underneath passes each hand-over
    on: on a pipe its own buffer is the smaller one.) *)
Definition write (s : pystr) (o : ostream) : ostream :=
  let o' :=
    if (buffer_size o <? N.of_nat (length (pending o ++ s)))%N
    then hold s (flush o)
    else hold (pending o ++ s) o in
  if (line_buffering o && has_newline s)
     || (buffer_size o <=? N.of_nat (length (pending o')))%N
  then flush o' else o'.

(** [print(s, file=f)]: the text, then the line end; [flush] keeps its
    default [False]. *)
Definition print (s : pystr) (o : ostream) : ostream :=
  write [LF] (write s o).

(** What the consumer has received. *)
Definition received (o : ostream) : pystr := concat (chunks o).

(** Everything written so far, received or not. *)
Definition text (o : ostream) : pystr := received o ++ pending o.

End Stream.

(** The lines of a text: the segments its line feeds end; a last segment
    without a line feed counts when it is not empty. *)
Fixpoint lines_from (cur : pystr) (s : pystr) : list pystr :=
  match s with
  | [] => match cur with [] => [] | _ => [rev cur] end
  | c :: s' => if N.eqb c LF then rev cur :: lines_from [] s'
               else lines_from (c :: cur) s'
  end.

Definition lines (s : pystr) : list pystr := lines_from [] s.

(* ================================================================== *)
(** ** The process state and its monad *)

(** One call [generator(prompt, max_length=.., num_return_sequences=..)]. *)
Record gen_call : Type := GenCall {
  gc_prompt : pystr;
  gc_max_length : Z;
  gc_num_return_sequences : Z
}.

(** One element of the list a text-generation pipeline returns: a dict
    from [str] to [str], which holds the key [generated_text]. *)
Definition candidate := list (pystr * pystr).

(** What the process has done so far.  [lines_read] counts the lines
    pulled from [sys.stdin] and [gen_calls] logs the calls of the
    generator, oldest first. *)
Record world : Type := World {
  lines_read : nat;
  stdout : Stream.ostream;
  stderr : pystr;
  gen_calls : list gen_call
}.

Definition initial_world (out : Stream.ostream) : world := World 0 out [] [].

(** Computations that change the world and may raise. *)
Definition M (A : Type) : Type := world -> result A * world.

Definition ret {A : Type} (a : A) : M A := fun w => (Ok a, w).

Definition bind {A B : Type} (m : M A) (k : A -> M B) : M B :=
  fun w =>
    match m w with
    | (Ok a, w') => k a w'
    | (Raise e, w') => (Raise e, w')
    end.

Definition lift {A : Type} (r : result A) : M A := fun w => (r, w).

Definition raise {A : Type} (e : exn) : M A := fun w => (Raise e, w).

(** [try: body / except Exception as e: handler(e)] *)
Definition try_except {A : Type} (body : M A) (handler : exn -> M A) : M A :=
  fun w =>
    match body w with
    | (Ok a, w') => (Ok a, w')
    | (Raise e, w') => handler e w'
    end.

Declare Scope py_scope.
Delimit Scope py_scope with py.
Notation "x <- m ;; k" := (bind m (fun x => k))
  (at level 61, m at next level, right associativity) : py_scope.
Notation "m ;; k" := (bind m (fun _ => k))
  (at level 61, right associativity) : py_scope.

(** [print(s)].  The channel takes every write: a consumer that closes
    the pipe is outside this development. *)
Definition print_stdout (s : pystr) : M unit :=
  fun w => (Ok tt, World (lines_read w) (Stream.print s (stdout w)) (stderr w) (gen_calls w)).

(** The world after [print(s)]. *)
Definition after_print (s : pystr) (w : world) : world := snd (print_stdout s w).

(** [print(s, file=sys.stderr)] *)
Definition print_stderr (s : pystr) : M unit :=
  fun w => (Ok tt, World (lines_read w) (stdout w) (stderr w ++ s ++ [LF]) (gen_calls w)).

(** The loop has pulled one more line. *)
Definition line_pulled : M unit :=
  fun w => (Ok tt, World (S (lines_read w)) (stdout w) (stderr w) (gen_calls w)).

(** One pull from [sys.stdin]: a line (with its line end), or a failure of
    the stream itself.  The end of the list is the end of the stream. *)
Inductive pull : Type :=
| Line (s : pystr)
| ReadError (e : exn).

Definition is_line (p : pull) : bool :=
  match p with Line _ => true | ReadError _ => false end.

(** How [main()] ends. *)
Inductive ending : Type :=
| Returned
| SystemExit (code : Z).

Definition exit_status (e : ending) : Z :=
  match e with Returned => 0%Z | SystemExit c => c end.

(* ================================================================== *)
(** ** A concrete environment *)

Module Demo.

Local Open Scope string_scope.
Local Open Scope list_scope.

(** The JSON object with the one key [prompt] and the given encoded value,
    as a line of input. *)
Definition prompt_line (encoded_value : pystr) : pystr :=
  str_of "{" ++ dq "prompt" ++ str_of ": " ++ encoded_value ++ str_of "}" ++ [LF].

Definition line_market : pystr := prompt_line (dq "The stock market").
Definition line_empty : pystr := prompt_line (dq "").
Definition line_blank : pystr := prompt_line (dq "   ").
Definition line_missing : pystr := str_of "{}" ++ [LF].
Definition line_number : pystr := prompt_line (str_of "5").
Definition line_null : pystr := prompt_line (str_of "null").
Definition line_array : pystr := str_of "[1, 2]" ++ [LF].
Definition line_not_json : pystr := str_of "not json" ++ [LF].
Definition line_quiet : pystr := prompt_line (dq "quiet").
Definition line_untitled : pystr := prompt_line (dq "untitled").
Definition line_boom : pystr := prompt_line (dq "boom").

Definition prompt_is (v : pyval) : pyval := PDict [(str_of "prompt", v)].

Definition JSONDecodeError (msg : string) : exn :=
  Exception "JSONDecodeError" (str_of msg).

(** A decoder that agrees with [json.loads] on the lines above and on
    [line_not_json]; it rejects every other line. *)
Definition loads (s : pystr) : result pyval :=
  if str_eqb s line_market then Ok (prompt_is (PStr (str_of "The stock market")))
  else if str_eqb s line_empty then Ok (prompt_is (PStr []))
  else if str_eqb s line_blank then Ok (prompt_is (PStr (str_of "   ")))
  else if str_eqb s line_missing then Ok (PDict [])
  else if str_eqb s line_number then Ok (prompt_is (PInt 5))
  else if str_eqb s line_null then Ok (prompt_is PNone)
  else if str_eqb s line_array then Ok (PList [PInt 1; PInt 2])
  else if str_eqb s line_quiet then Ok (prompt_is (PStr (str_of "quiet")))
  else if str_eqb s line_untitled then Ok (prompt_is (PStr (str_of "untitled")))
  else if str_eqb s line_boom then Ok (prompt_is (PStr (str_of "boom")))
  else Raise (JSONDecodeError "Expecting value: line 1 column 1 (char 0)").

(** Loaders that succeed, and one that does not. *)
Definition load_tokenizer (name : string) : result unit := Ok tt.
Definition load_model (name : string) : result unit := Ok tt.
Definition make_pipeline (task : string) (model tokenizer : unit) (device : Z)
  : result unit := Ok tt.
Definition load_unavailable (name : string) : result unit :=
  Raise (Exception "OSError" (str_of "resource unavailable")).

(** A generator: it continues most prompts, returns no candidate for
    [quiet], a candidate without text for [untitled], and fails on [boom]. *)
Definition generate (p : unit) (earlier : list gen_call) (prompt : pystr)
    (max_length num_return_sequences : Z) : result (list candidate) :=
  if str_eqb prompt (str_of "quiet") then Ok []
  else if str_eqb prompt (str_of "untitled") then Ok [[(str_of "score", str_of "1")]]
  else if str_eqb prompt (str_of "boom") then
    Raise (Exception "RuntimeError" (str_of "out of memory"))
  else Ok [[(str_of "generated_text", prompt ++ str_of " is up")]].

(** A stream failure: the bytes on [sys.stdin] are not UTF-8. *)
Definition bad_bytes : exn :=
  Exception "UnicodeDecodeError"
    (str_of "'utf-8' codec can't decode byte 0xff in position 0: invalid start byte").

(** [sys.stdout] on a pipe, and on a terminal. *)
Definition piped : Stream.ostream := Stream.fresh false 8192.
Definition terminal : Stream.ostream := Stream.fresh true 8192.

End Demo.

(* ================================================================== *)
(** ** [main] *)

Section Generate.

Local Open Scope string_scope.
Local Open Scope list_scope.
Local Open Scope py_scope.

(** The collaborators: the [transformers] loaders and pipeline, and
    [json.loads].  A call of the pipeline may depend on the calls made
    before it. *)
Variables Tokenizer CausalLM Pipeline : Type.
Variable AutoTokenizer_from_pretrained : string -> result Tokenizer.
Variable AutoModelForCausalLM_from_pretrained : string -> result CausalLM.
Variable pipeline : string -> CausalLM -> Tokenizer -> Z -> result Pipeline.
Variable call_pipeline :
  Pipeline -> list gen_call -> pystr -> Z -> Z -> result (list candidate).
Variable json_loads : pystr -> result pyval.

Definition MODEL_NAME : string := "EleutherAI/gpt-neo-125M".

(** [generator(prompt, max_length=.., num_return_sequences=..)] *)
Definition call_generator (generator : Pipeline) (prompt : pystr)
    (max_length num_return_sequences : Z) : M (list candidate) :=
  fun w =>
    (call_pipeline generator (gen_calls w) prompt max_length num_return_sequences,
     World (lines_read w) (stdout w) (stderr w)
       (gen_calls w ++ [GenCall prompt max_length num_return_sequences])).

(** Lines 24-28: the model is loaded once. *)
Definition load : M Pipeline :=
  print_stderr (str_of "Loading model...") ;;
  tokenizer <- lift (AutoTokenizer_from_pretrained MODEL_NAME) ;;
  model <- lift (AutoModelForCausalLM_from_pretrained MODEL_NAME) ;;
  generator <- lift (pipeline "text-generation" model tokenizer (-1)) ;;
  print_stderr (str_of "Model loaded.") ;;
  ret generator.

(** Lines 33-41: the suite of the inner [try]. *)
Definition line_body (generator : Pipeline) (line : pystr) : M unit :=
  data <- lift (json_loads line) ;;
  value <- lift (py_get data (str_of "prompt") (PStr [])) ;;
  prompt <- lift (py_strip value) ;;
  match prompt with
  | [] => print_stdout (json_dumps [(str_of "error", str_of "Prompt is required.")])
  | _ =>
      output <- call_generator generator prompt 128 1 ;;
      result <- lift (match output with
                      | first :: _ => py_getitem first "generated_text"
                      | [] => Ok []
                      end) ;;
      print_stdout (json_dumps [(str_of "result", result)])
  end.

(** Lines 32-43: one turn of the loop. *)
Definition handle_line (generator : Pipeline) (line : pystr) : M unit :=
  try_except (line_body generator line)
    (fun e => print_stdout (json_dumps [(str_of "error", exc_str e)])).

(** Lines 31-43: [for line in sys.stdin]. *)
Fixpoint read_loop (generator : Pipeline) (input : list pull) : M unit :=
  match input with
  | [] => ret tt
  | ReadError e :: _ => raise e
  | Line line :: rest =>
      line_pulled ;; handle_line generator line ;; read_loop generator rest
  end.

(** Lines 21-46. *)
Definition main (input : list pull) (w : world) : ending * world :=
  match (generator <- load ;; read_loop generator input) w with
  | (Ok _, w') => (Returned, w')
  | (Raise e, w') =>
      let w'' := snd (print_stdout
                        (json_dumps [(str_of "error",
                                      str_of "Failed to load model: " ++ exc_str e)]) w') in
      (SystemExit 1, w'')
  end.

(** The process: [main()], then the interpreter leaves and flushes
    [sys.stdout]. *)
Definition run (input : list pull) (w : world) : Z * world :=
  let (e, w') := main input w in
  (exit_status e,
   World (lines_read w') (Stream.flush (stdout w')) (stderr w') (gen_calls w')).

End Generate.

Unset Implicit Arguments.

(* ================================================================== *)
(** ** The texts the service writes *)

Section Responses.

Local Open Scope string_scope.
Local Open Scope list_scope.

(** [{"error": "Prompt is required."}] *)
Definition prompt_required_json : pystr :=
  str_of "{" ++ dq "error" ++ str_of ": " ++ dq "Prompt is required." ++ str_of "}".

(** [{"error": m}], with [m] encoded as a JSON string. *)
Definition error_json (m : pystr) : pystr :=
  str_of "{" ++ dq "error" ++ str_of ": " ++ py_encode_basestring_ascii m ++ str_of "}".

(** [{"result": t}], with [t] encoded as a JSON string. *)
Definition result_json (t : pystr) : pystr :=
  str_of "{" ++ dq "result" ++ str_of ": " ++ py_encode_basestring_ascii t ++ str_of "}".

(** [{"error": "Failed to load model: m"}] *)
Definition fatal_json (m : pystr) : pystr :=
  error_json (str_of "Failed to load model: " ++ m).

(** The text of complete lines. *)
Definition unlines (rs : list pystr) : pystr :=
  concat (map (fun r => r ++ [LF]) rs).

(** A JSON object decoded from a line asks for nothing: its [prompt] is
    absent, or a string of white space only (the empty string included). *)
Definition blank_prompt (d : list (pystr * pyval)) : Prop :=
  match dict_lookup (str_of "prompt") d with
  | None => True
  | Some (PStr s) => forallb py_isspace s = true
  | Some _ => False
  end.

(** The characters [json.dumps] writes: printable ASCII. *)
Definition printableb (c : N) : bool := ((32 <=? c) && (c <=? 126))%N.

(** A prompt as the generator gets it: not empty, and with no white space
    at either end. *)
Definition trimmed (p : pystr) : bool :=
  match p with
  | [] => false
  | c :: _ => negb (py_isspace c) && negb (py_isspace (last p c))
  end.

(** A call of the generator with a trimmed prompt and the two fixed
    parameters of line 39. *)
Definition fixed_call (c : gen_call) : bool :=
  trimmed (gc_prompt c) && (gc_max_length c =? 128)%Z
  && (gc_num_return_sequences c =? 1)%Z.

(** A line of output: [json.dumps] of a dict with the single key [result]
    or [error]. *)
Definition answer_line (r : pystr) : Prop :=
  exists k v, (k = str_of "result" \/ k = str_of "error") /\ r = json_dumps [(k, v)].

(** The world when the interpreter has left: [sys.stdout] is flushed. *)
Definition at_exit (w : world) : world :=
  World (lines_read w) (Stream.flush (stdout w)) (stderr w) (gen_calls w).


(** Two worlds that differ at most in how [sys.stdout] is buffered: the
    same text has been written, whatever part of it has been handed over. *)
Definition alike (w w' : world) : Prop :=
  lines_read w = lines_read w'
  /\ Stream.text (stdout w) = Stream.text (stdout w')
  /\ stderr w = stderr w'
  /\ gen_calls w = gen_calls w'.


(** A Unicode scalar value: a code point that is not a surrogate.  A
    Python [str] may hold lone surrogates; text decoded from UTF-8 holds
    scalar values only. *)
Definition scalar (c : N) : bool :=
  ((c <? 0xD800) || ((0xDFFF <? c) && (c <? 0x110000)))%N.


(** The character a two-character escape (a backslash and [x]) stands for. *)
Definition short_source (x : N) : N :=
  (if x =? 98 then 8 else if x =? 102 then 12 else if x =? 110 then 10
   else if x =? 114 then 13 else if x =? 116 then 9 else x)%N.


End Responses.

(* ================================================================== *)
(** ** Facts about strings and [json.dumps] *)

Section PyFacts.

Local Open Scope list_scope.

Lemma str_eqb_refl (a : pystr) : str_eqb a a = true.
Proof.
  induction a as [|x a IH]; simpl; [reflexivity|].
  now rewrite N.eqb_refl, IH.
Qed.

Lemma str_eqb_eq (a b : pystr) : str_eqb a b = true <-> a = b.
Proof.
  split; [|intros ->; apply str_eqb_refl].
  revert b; induction a as [|x a IH]; intros [|y b]; simpl; try discriminate; auto.
  rewrite andb_true_iff, N.eqb_eq. intros [-> H]. f_equal. now apply IH.
Qed.

Lemma lstrip_blank (s : pystr) : forallb py_isspace s = true -> lstrip s = [].
Proof.
  induction s as [|c s IH]; simpl; [reflexivity|].
  rewrite andb_true_iff. intros [-> H]. now apply IH.
Qed.

Lemma lstrip_nil_blank (s : pystr) : lstrip s = [] -> forallb py_isspace s = true.
Proof.
  induction s as [|c s IH]; simpl; [reflexivity|].
  destruct (py_isspace c); [simpl; exact IH | discriminate].
Qed.

Lemma lstrip_head (s : pystr) :
  match lstrip s with [] => True | c :: _ => py_isspace c = false end.
Proof.
  induction s as [|c s IH]; simpl; [exact I|].
  destruct (py_isspace c) eqn:E; [exact IH | exact E].
Qed.

Lemma forallb_rev {A : Type} (f : A -> bool) (l : list A) :
  forallb f (rev l) = forallb f l.
Proof.
  induction l as [|x l IH]; simpl; [reflexivity|].
  rewrite forallb_app, IH. simpl. rewrite andb_true_r. apply andb_comm.
Qed.

(** A string of white space only strips to the empty string ... *)
Lemma strip_blank (s : pystr) : forallb py_isspace s = true -> strip s = [].
Proof.
  intros H. unfold strip, rstrip. now rewrite (lstrip_blank s H).
Qed.

(** ... and no other string does. *)
Lemma strip_nil_blank (s : pystr) : strip s = [] -> forallb py_isspace s = true.
Proof.
  unfold strip, rstrip. intros H.
  apply (f_equal (@rev N)) in H. rewrite rev_involutive in H. simpl in H.
  apply lstrip_nil_blank in H. rewrite forallb_rev in H.
  pose proof (lstrip_head s) as Hh.
  destruct (lstrip s) as [|c t] eqn:E.
  - now apply lstrip_nil_blank.
  - simpl in H. rewrite Hh in H. discriminate.
Qed.

Lemma hex_digit_printable (d : N) : (d < 16)%N -> printableb (hex_digit d) = true.
Proof.
  intros H. unfold printableb, hex_digit.
  destruct (N.ltb_spec d 10);
    apply andb_true_iff; split; apply N.leb_le; lia.
Qed.

Lemma u_escape_printable (n : N) : forallb printableb (u_escape n) = true.
Proof.
  unfold u_escape. simpl.
  rewrite !hex_digit_printable; try reflexivity; apply N.mod_lt; discriminate.
Qed.

Lemma escape_char_printable (c : N) : forallb printableb (escape_char c) = true.
Proof.
  unfold escape_char.
  repeat match goal with
         | |- context [if (c =? ?k)%N then _ else _] =>
             destruct (c =? k)%N; [reflexivity|]
         end.
  destruct ((32 <=? c)%N && (c <=? 126)%N) eqn:E.
  - simpl. unfold printableb. now rewrite E.
  - destruct (c <? 65536)%N.
    + apply u_escape_printable.
    + cbv zeta. rewrite forallb_app, !u_escape_printable. reflexivity.
Qed.

Lemma encode_printable (s : pystr) :
  forallb printableb (py_encode_basestring_ascii s) = true.
Proof.
  unfold py_encode_basestring_ascii. simpl.
  rewrite forallb_app. simpl. rewrite andb_true_r.
  induction s as [|c s IH]; simpl; [reflexivity|].
  now rewrite forallb_app, escape_char_printable, IH.
Qed.

Lemma json_item_printable (kv : pystr * pystr) :
  forallb printableb (json_item kv) = true.
Proof.
  unfold json_item. now rewrite !forallb_app, !encode_printable.
Qed.

Lemma join_printable (sep : pystr) (items : list pystr) :
  forallb printableb sep = true ->
  Forall (fun x => forallb printableb x = true) items ->
  forallb printableb (join sep items) = true.
Proof.
  intros Hs H. induction H as [|x l Hx Hl IH]; [reflexivity|].
  destruct l as [|y l]; [exact Hx|].
  change (join sep (x :: y :: l)) with (x ++ sep ++ join sep (y :: l)).
  now rewrite !forallb_app, Hx, Hs, IH.
Qed.

(** [json.dumps] writes printable ASCII only. *)
Lemma json_dumps_printable (d : list (pystr * pystr)) :
  forallb printableb (json_dumps d) = true.
Proof.
  unfold json_dumps. rewrite !forallb_app.
  rewrite join_printable; [reflexivity | reflexivity |].
  apply Forall_forall. intros x Hx. apply in_map_iff in Hx.
  destruct Hx as [kv [<- _]]. apply json_item_printable.
Qed.

Lemma printable_no_char (c : N) (s : pystr) :
  printableb c = false -> forallb printableb s = true -> existsb (N.eqb c) s = false.
Proof.
  intros Hc. induction s as [|x s IH]; simpl; [reflexivity|].
  rewrite andb_true_iff. intros [Hx Hs]. rewrite (IH Hs), orb_false_r.
  destruct (N.eqb_spec c x) as [->|]; [congruence | reflexivity].
Qed.


(** The three shapes of object the service writes are [json.dumps] of a
    dict with one key. *)
Lemma error_json_dumps (m : pystr) :
  json_dumps [(str_of "error", m)] = error_json m.
Proof. reflexivity. Qed.

Lemma result_json_dumps (t : pystr) :
  json_dumps [(str_of "result", t)] = result_json t.
Proof. reflexivity. Qed.

Lemma prompt_required_dumps :
  json_dumps [(str_of "error", str_of "Prompt is required.")] = prompt_required_json.
Proof. reflexivity. Qed.

End PyFacts.

(* ================================================================== *)
(** ** Facts about the output channel and about lines *)

Section StreamFacts.

Local Open Scope list_scope.
Import Stream.

Lemma received_flush (o : ostream) : received (flush o) = text o.
Proof.
  unfold flush, text, received. destruct (pending o) as [|c p] eqn:E.
  - now rewrite app_nil_r.
  - simpl. rewrite concat_app. simpl. now rewrite app_nil_r.
Qed.

Lemma pending_flush (o : ostream) : pending (flush o) = [].
Proof.
  unfold flush. destruct (pending o) eqn:E; [exact E | reflexivity].
Qed.

Lemma text_flush (o : ostream) : text (flush o) = text o.
Proof.
  unfold text at 1. now rewrite received_flush, pending_flush, app_nil_r.
Qed.

Lemma line_buffering_flush (o : ostream) :
  line_buffering (flush o) = line_buffering o.
Proof. unfold flush. now destruct (pending o). Qed.

Lemma text_hold_flush (s : pystr) (o : ostream) :
  text (hold s (flush o)) = text o ++ s.
Proof.
  unfold text at 1. unfold received, hold. cbn [chunks pending].
  change (concat (chunks (flush o))) with (received (flush o)).
  now rewrite received_flush.
Qed.

Lemma text_hold_app (s : pystr) (o : ostream) :
  text (hold (pending o ++ s) o) = text o ++ s.
Proof. unfold text, received, hold. cbn [chunks pending]. apply app_assoc. Qed.

Lemma text_write (s : pystr) (o : ostream) : text (write s o) = text o ++ s.
Proof.
  unfold write. cbv zeta.
  destruct (buffer_size o <? N.of_nat (length (pending o ++ s)))%N;
    match goal with |- context [if ?b then _ else _] => destruct b end;
    rewrite ?text_flush; first [apply text_hold_flush | apply text_hold_app].
Qed.

Lemma line_buffering_write (s : pystr) (o : ostream) :
  line_buffering (write s o) = line_buffering o.
Proof.
  unfold write. cbv zeta.
  destruct (buffer_size o <? N.of_nat (length (pending o ++ s)))%N;
    match goal with |- context [if ?b then _ else _] => destruct b end;
    rewrite ?line_buffering_flush; unfold hold; cbn [line_buffering];
    rewrite ?line_buffering_flush; reflexivity.
Qed.






(** [print] adds the text and one line feed, whatever the buffering. *)
Lemma text_print (s : pystr) (o : ostream) : text (print s o) = text o ++ s ++ [LF].
Proof. unfold print. now rewrite !text_write, app_assoc. Qed.

(** On a line-buffered stream nothing stays behind after [print]. *)
Lemma pending_print_line_buffered (s : pystr) (o : ostream) :
  line_buffering o = true -> pending (print s o) = [].
Proof.
  intros H. unfold print. unfold write at 1. cbv zeta.
  rewrite line_buffering_write, H. simpl. apply pending_flush.
Qed.


Lemma unlines_app (a b : list pystr) : unlines (a ++ b) = unlines a ++ unlines b.
Proof. unfold unlines. now rewrite map_app, concat_app. Qed.

Lemma unlines_one (r : pystr) : unlines [r] = r ++ [LF].
Proof. unfold unlines. cbn [map concat]. apply app_nil_r. Qed.

Lemma lines_from_line (r cur s : pystr) :
  existsb (N.eqb LF) r = false ->
  lines_from cur (r ++ LF :: s) = (rev cur ++ r) :: lines_from [] s.
Proof.
  revert cur. induction r as [|c r IH]; intros cur H; cbn [app lines_from].
  - now rewrite N.eqb_refl, app_nil_r.
  - cbn [existsb] in H. apply orb_false_iff in H. destruct H as [Hc Hr].
    rewrite N.eqb_sym, Hc. rewrite (IH (c :: cur) Hr). cbn [rev].
    now rewrite <- app_assoc.
Qed.

(** Reading back the lines of a text made of complete lines. *)
Lemma lines_unlines (rs : list pystr) (rest : pystr) :
  Forall (fun r => existsb (N.eqb LF) r = false) rs ->
  lines (unlines rs ++ rest) = rs ++ lines rest.
Proof.
  intros H. induction H as [|r rs Hr Hrs IH]; [reflexivity|].
  unfold unlines in *. simpl. unfold lines in *.
  rewrite <- !app_assoc. simpl. rewrite (lines_from_line r [] _ Hr). simpl.
  now rewrite IH.
Qed.

Lemma lines_of_unlines (rs : list pystr) :
  Forall (fun r => existsb (N.eqb LF) r = false) rs -> lines (unlines rs) = rs.
Proof.
  intros H. rewrite <- (app_nil_r (unlines rs)), (lines_unlines rs [] H).
  apply app_nil_r.
Qed.

Lemma printable_no_LF (s : pystr) :
  forallb printableb s = true -> existsb (N.eqb LF) s = false.
Proof. now apply printable_no_char. Qed.

End StreamFacts.

(* ================================================================== *)
(** ** Properties of [main] *)

Section Properties.

Local Open Scope string_scope.
Local Open Scope list_scope.
Import Stream.

Variables Tokenizer CausalLM Pipeline : Type.
Variable AutoTokenizer_from_pretrained : string -> result Tokenizer.
Variable AutoModelForCausalLM_from_pretrained : string -> result CausalLM.
Variable pipeline : string -> CausalLM -> Tokenizer -> Z -> result Pipeline.
Variable call_pipeline :
  Pipeline -> list gen_call -> pystr -> Z -> Z -> result (list candidate).
Variable json_loads : pystr -> result pyval.

Local Abbreviation load_ :=
  (load AutoTokenizer_from_pretrained AutoModelForCausalLM_from_pretrained pipeline).
Local Abbreviation line_body_ := (line_body call_pipeline json_loads).
Local Abbreviation handle_line_ := (handle_line call_pipeline json_loads).
Local Abbreviation read_loop_ := (read_loop call_pipeline json_loads).
Local Abbreviation main_ :=
  (main AutoTokenizer_from_pretrained AutoModelForCausalLM_from_pretrained
     pipeline call_pipeline json_loads).
Local Abbreviation run_ :=
  (run AutoTokenizer_from_pretrained AutoModelForCausalLM_from_pretrained
     pipeline call_pipeline json_loads).

(** Unfold one turn of the loop down to the calls of the collaborators. *)
Ltac step_line :=
  unfold handle_line, try_except, line_body, bind, lift, call_generator,
    print_stdout, after_print; cbn [fst snd].

Ltac case_on t := let E := fresh "E" in destruct t eqn:E; cbn [fst snd] in *.

(** *** Loading *)

(** Loading writes to [sys.stderr] only. *)
Lemma load_frame (w : world) :
  stdout (snd (load_ w)) = stdout w
  /\ lines_read (snd (load_ w)) = lines_read w
  /\ gen_calls (snd (load_ w)) = gen_calls w.
Proof.
  unfold load, bind, lift, print_stderr, ret. cbn [fst snd].
  case_on (AutoTokenizer_from_pretrained MODEL_NAME); [|now auto].
  case_on (AutoModelForCausalLM_from_pretrained MODEL_NAME); [|now auto].
  case_on (pipeline "text-generation" a0 a (-1)); now auto.
Qed.

(** Loading fails exactly when one of its three steps raises, with that
    step's exception. *)
Lemma load_raises (w : world) (e : exn) :
  fst (load_ w) = Raise e <->
  AutoTokenizer_from_pretrained MODEL_NAME = Raise e
  \/ (exists t, AutoTokenizer_from_pretrained MODEL_NAME = Ok t
      /\ (AutoModelForCausalLM_from_pretrained MODEL_NAME = Raise e
          \/ exists m, AutoModelForCausalLM_from_pretrained MODEL_NAME = Ok m
                       /\ pipeline "text-generation" m t (-1) = Raise e)).
Proof.
  unfold load, bind, lift, print_stderr, ret. cbn [fst snd].
  case_on (AutoTokenizer_from_pretrained MODEL_NAME);
    [case_on (AutoModelForCausalLM_from_pretrained MODEL_NAME);
       [case_on (pipeline "text-generation" a0 a (-1))|]|];
    (split;
     [ intros H; try discriminate; injection H as <-; eauto 10
     | intros [H|[t [Ht [H|[m [Hm H]]]]]]; congruence ]).
Qed.

(** *** One line *)

(** Whatever the line, its turn ends normally and has printed one JSON
    object with the single key [result] or [error]; only the log of
    generator calls may have changed besides. *)
Lemma handle_line_prints (g : Pipeline) (line : pystr) (w : world) :
  exists (k v : pystr) (calls : list gen_call),
    (k = str_of "result" \/ k = str_of "error")
    /\ handle_line_ g line w
       = (Ok tt, World (lines_read w) (print (json_dumps [(k, v)]) (stdout w))
                   (stderr w) calls).
Proof.
  step_line.
  case_on (json_loads line); [|now eauto 8].
  case_on (py_get a (str_of "prompt") (PStr [])); [|now eauto 8].
  case_on (py_strip a0); [|now eauto 8].
  destruct a1 as [|c p]; [now eauto 8|].
  case_on (call_pipeline g (gen_calls w) (c :: p) 128%Z 1%Z); [|now eauto 8].
  destruct a1 as [|first others]; [now eauto 8|].
  case_on (py_getitem first "generated_text"); now eauto 8.
Qed.

Lemma handle_line_ok (g : Pipeline) (line : pystr) (w : world) :
  fst (handle_line_ g line w) = Ok tt.
Proof.
  destruct (handle_line_prints g line w) as (k & v & calls & _ & ->). reflexivity.
Qed.

(** The text one turn adds to [sys.stdout]: one line of printable ASCII. *)
Lemma handle_line_text (g : Pipeline) (line : pystr) (w : world) :
  exists r, forallb printableb r = true
    /\ text (stdout (snd (handle_line_ g line w))) = text (stdout w) ++ r ++ [LF]
    /\ lines_read (snd (handle_line_ g line w)) = lines_read w.
Proof.
  destruct (handle_line_prints g line w) as (k & v & calls & _ & ->).
  exists (json_dumps [(k, v)]). cbn [fst snd stdout lines_read].
  split; [apply json_dumps_printable|]. split; [apply text_print | reflexivity].
Qed.

(** When the suite of a line raises, it has not printed anything yet. *)
Lemma line_body_raises_before_printing
    (g : Pipeline) (line : pystr) (w w1 : world) (e : exn) :
  line_body_ g line w = (Raise e, w1) -> stdout w1 = stdout w.
Proof.
  unfold line_body, bind, lift, call_generator, print_stdout.
  case_on (json_loads line); [|intros [= _ <-]; reflexivity].
  case_on (py_get a (str_of "prompt") (PStr [])); [|intros [= _ <-]; reflexivity].
  case_on (py_strip a0); [|intros [= _ <-]; reflexivity].
  destruct a1 as [|c p]; [discriminate|].
  case_on (call_pipeline g (gen_calls w) (c :: p) 128%Z 1%Z);
    [|intros [= _ <-]; reflexivity].
  destruct a1 as [|first others]; [discriminate|].
  case_on (py_getitem first "generated_text");
    [discriminate | intros [= _ <-]; reflexivity].
Qed.

(** *** The loop *)

(** One turn: the line is counted and answered, and the loop goes on with
    the rest of the input, whatever happened to the line. *)
Lemma read_loop_cons (g : Pipeline) (line : pystr) (rest : list pull) (w : world) :
  read_loop_ g (Line line :: rest) w
  = read_loop_ g rest (snd (handle_line_ g line (snd (line_pulled w)))).
Proof.
  cbn [read_loop]. unfold bind, line_pulled. cbn [snd].
  set (w0 := World (S (lines_read w)) (stdout w) (stderr w) (gen_calls w)).
  pose proof (handle_line_ok g line w0) as Hok.
  destruct (handle_line_ g line w0) as [[[]|e] w1]; [reflexivity | discriminate].
Qed.

(** Over lines that all arrive, the loop ends normally, has pulled every
    one of them and has written one line of text for each. *)
Lemma read_loop_lines (g : Pipeline) (ls : list pystr) (w : world) :
  exists rs,
    fst (read_loop_ g (map Line ls) w) = Ok tt
    /\ length rs = length ls
    /\ Forall (fun r => forallb printableb r = true) rs
    /\ text (stdout (snd (read_loop_ g (map Line ls) w)))
       = text (stdout w) ++ unlines rs
    /\ lines_read (snd (read_loop_ g (map Line ls) w))
       = (lines_read w + length ls)%nat.
Proof.
  revert w. induction ls as [|line ls IH]; intros w.
  - exists []. cbn. rewrite app_nil_r, Nat.add_0_r. now auto.
  - cbn [map]. rewrite read_loop_cons.
    destruct (handle_line_text g line (snd (line_pulled w))) as (r & Hr & Ht & Hn).
    destruct (IH (snd (handle_line_ g line (snd (line_pulled w)))))
      as (rs & H1 & H2 & H3 & H4 & H5).
    exists (r :: rs). repeat split.
    + exact H1.
    + cbn. now rewrite H2.
    + now constructor.
    + rewrite H4, Ht. unfold unlines. cbn. now rewrite <- !app_assoc.
    + rewrite H5, Hn. cbn. lia.
Qed.

(** The loop over a run of lines followed by more input is the loop over
    the lines, then the loop over the rest. *)
Lemma read_loop_app (g : Pipeline) (ls : list pystr) (rest : list pull) (w : world) :
  read_loop_ g (map Line ls ++ rest) w
  = read_loop_ g rest (snd (read_loop_ g (map Line ls) w)).
Proof.
  revert w. induction ls as [|line ls IH]; intros w; [reflexivity|].
  cbn [map app]. rewrite !read_loop_cons. apply IH.
Qed.

(** Every input is a run of lines, followed by nothing or by a failure of
    the stream. *)
Lemma input_shape (input : list pull) :
  (forallb is_line input = true /\ exists ls, input = map Line ls)
  \/ (forallb is_line input = false
      /\ exists ls e rest, input = map Line ls ++ ReadError e :: rest).
Proof.
  induction input as [|[s|e] input IH].
  - left. split; [reflexivity|]. now exists [].
  - destruct IH as [[H [ls ->]]|[H (ls & e & rest & ->)]].
    + left. split; [exact H|]. now exists (s :: ls).
    + right. split; [exact H|]. now exists (s :: ls), e, rest.
  - right. split; [reflexivity|]. now exists [], e, input.
Qed.

(** *** [main] and the process *)

Lemma main_load_fails (input : list pull) (w : world) (e : exn) :
  fst (load_ w) = Raise e ->
  main_ input w = (SystemExit 1, after_print (fatal_json (exc_str e)) (snd (load_ w))).
Proof.
  intros H. unfold main, bind.
  destruct (load_ w) as [[g|e'] w1]; cbn [fst snd] in *; [discriminate|].
  now injection H as ->.
Qed.

Lemma main_returns (input : list pull) (w : world) (g : Pipeline) :
  fst (load_ w) = Ok g ->
  fst (read_loop_ g input (snd (load_ w))) = Ok tt ->
  main_ input w = (Returned, snd (read_loop_ g input (snd (load_ w)))).
Proof.
  intros H1 H2. unfold main, bind.
  destruct (load_ w) as [[g'|e'] w1]; cbn [fst snd] in *; [|discriminate].
  injection H1 as ->.
  destruct (read_loop_ g input w1) as [[u|e] w2]; cbn [fst snd] in *;
    [reflexivity | discriminate].
Qed.

Lemma main_read_fails (input : list pull) (w : world) (g : Pipeline) (e : exn) :
  fst (load_ w) = Ok g ->
  fst (read_loop_ g input (snd (load_ w))) = Raise e ->
  main_ input w
  = (SystemExit 1,
     after_print (fatal_json (exc_str e)) (snd (read_loop_ g input (snd (load_ w))))).
Proof.
  intros H1 H2. unfold main, bind.
  destruct (load_ w) as [[g'|e'] w1]; cbn [fst snd] in *; [|discriminate].
  injection H1 as ->.
  destruct (read_loop_ g input w1) as [[u|e'] w2]; cbn [fst snd] in *;
    [discriminate|].
  now injection H2 as ->.
Qed.

Lemma run_unfold (input : list pull) (w : world) :
  run_ input w
  = (exit_status (fst (main_ input w)),
     World (lines_read (snd (main_ input w))) (flush (stdout (snd (main_ input w))))
       (stderr (snd (main_ input w))) (gen_calls (snd (main_ input w)))).
Proof. unfold run. now destruct (main_ input w). Qed.


(** The three ways the process can go. *)
Lemma run_load_failure (input : list pull) (w : world) (e : exn) :
  fst (load_ w) = Raise e ->
  run_ input w
  = (1%Z, World (lines_read w)
            (flush (print (fatal_json (exc_str e)) (stdout w)))
            (stderr (snd (load_ w))) (gen_calls w)).
Proof.
  intros H. rewrite run_unfold, (main_load_fails input w e H).
  destruct (load_frame w) as (H1 & H2 & H3).
  unfold after_print, print_stdout. cbn [fst snd exit_status lines_read stdout stderr gen_calls].
  now rewrite H1, H2, H3.
Qed.

Lemma run_clean (ls : list pystr) (w : world) (g : Pipeline) :
  fst (load_ w) = Ok g ->
  let w' := snd (read_loop_ g (map Line ls) (snd (load_ w))) in
  run_ (map Line ls) w
  = (0%Z, World (lines_read w') (flush (stdout w')) (stderr w') (gen_calls w')).
Proof.
  intros H w'. rewrite run_unfold.
  destruct (read_loop_lines g ls (snd (load_ w))) as (rs & Hok & _).
  now rewrite (main_returns _ w g H Hok).
Qed.

Lemma run_stream_failure (ls : list pystr) (e : exn) (rest : list pull)
    (w : world) (g : Pipeline) :
  fst (load_ w) = Ok g ->
  let w' := snd (read_loop_ g (map Line ls) (snd (load_ w))) in
  run_ (map Line ls ++ ReadError e :: rest) w
  = (1%Z, World (lines_read w')
            (flush (print (fatal_json (exc_str e)) (stdout w')))
            (stderr w') (gen_calls w')).
Proof.
  intros H w'. rewrite run_unfold.
  assert (Hr : read_loop_ g (map Line ls ++ ReadError e :: rest) (snd (load_ w))
               = (Raise e, w')).
  { rewrite read_loop_app. reflexivity. }
  rewrite (main_read_fails _ w g e H (f_equal fst Hr)), Hr. reflexivity.
Qed.

(** What the consumer holds after a run over lines that all arrive. *)
Lemma received_clean (lb : bool) (size : N) (g : Pipeline) (ls : list pystr) :
  fst (load_ (initial_world (fresh lb size))) = Ok g ->
  exists rs,
    length rs = length ls
    /\ Forall (fun r => existsb (N.eqb LF) r = false) rs
    /\ received (stdout (snd (run_ (map Line ls) (initial_world (fresh lb size)))))
       = unlines rs
    /\ text (stdout (snd (read_loop_ g (map Line ls)
                            (snd (load_ (initial_world (fresh lb size)))))))
       = unlines rs.
Proof.
  intros H. set (w0 := initial_world (fresh lb size)) in *.
  destruct (read_loop_lines g ls (snd (load_ w0))) as (rs & _ & Hl & Hp & Ht & _).
  destruct (load_frame w0) as (Hs & _). rewrite Hs in Ht. cbn in Ht.
  exists rs. split; [exact Hl|]. split.
  - eapply Forall_impl; [|exact Hp]. intros r. apply printable_no_LF.
  - rewrite (run_clean ls w0 g H). cbn [snd stdout]. now rewrite received_flush.
Qed.


(** *** The claims about the whole process *)

(** C1: when the model loads, a run over N input lines leaves exactly N
    lines on the output channel, and they are in the order of the input:
    what the service has written after the first k input lines is the first
    k lines of what it writes in all.  Nothing is assumed about the lines,
    the decoder or the generator, so this holds whichever lines succeed or
    fail. *)
Theorem one_output_line_per_input_line
    (lb : bool) (size : N) (g : Pipeline) (ls : list pystr) :
  fst (load_ (initial_world (fresh lb size))) = Ok g ->
  let written := fun input : list pystr =>
    lines (received (stdout (snd (run_ (map Line input)
                                    (initial_world (fresh lb size)))))) in
  length (written ls) = length ls
  /\ forall k, (k <= length ls)%nat ->
       written (firstn k ls) = firstn k (written ls).
Proof.
  intros H written. subst written. cbv beta.
  set (w0 := initial_world (fresh lb size)) in *.
  assert (Hall : forall input, exists rs,
             length rs = length input
             /\ Forall (fun r => existsb (N.eqb LF) r = false) rs
             /\ lines (received (stdout (snd (run_ (map Line input) w0)))) = rs
             /\ text (stdout (snd (read_loop_ g (map Line input) (snd (load_ w0)))))
                = unlines rs).
  { intros input. destruct (received_clean lb size g input H) as (rs & H1 & H2 & H3 & H4).
    exists rs. repeat split; try assumption.
    fold w0 in H3. rewrite H3. now apply lines_of_unlines. }
  split.
  - destruct (Hall ls) as (rs & H1 & _ & -> & _). exact H1.
  - intros k Hk.
    destruct (Hall (firstn k ls)) as (rs1 & L1 & N1 & -> & T1).
    rewrite length_firstn, (Nat.min_l _ _ Hk) in L1.
    destruct (read_loop_lines g (skipn k ls)
                (snd (read_loop_ g (map Line (firstn k ls)) (snd (load_ w0)))))
      as (rs2 & _ & L2 & P2 & T2 & _).
    rewrite <- read_loop_app, <- map_app, firstn_skipn, T1 in T2.
    rewrite (run_clean ls w0 g H). cbn [snd stdout].
    rewrite received_flush, T2, <- unlines_app, lines_of_unlines.
    + subst k. rewrite <- (Nat.add_0_r (length rs1)).
      rewrite firstn_app_2. cbn [firstn]. now rewrite app_nil_r.
    + apply Forall_app. split; [exact N1|].
      eapply Forall_impl; [|exact P2]. intros r. apply printable_no_LF.
Qed.

(** C6: when loading fails with an exception whose text is m, the process
    leaves with status 1, the consumer receives the single line
    [{"error": "Failed to load model: m"}], no line of input has been pulled
    (the outcome does not depend on the input at all) and the generator has
    not been called. *)
Theorem load_failure_is_fatal
    (lb : bool) (size : N) (input : list pull) (e : exn) :
  fst (load_ (initial_world (fresh lb size))) = Raise e ->
  let after := run_ input (initial_world (fresh lb size)) in
  fst after = 1%Z
  /\ received (stdout (snd after)) = fatal_json (exc_str e) ++ [LF]
  /\ lines (received (stdout (snd after))) = [fatal_json (exc_str e)]
  /\ lines_read (snd after) = 0%nat
  /\ gen_calls (snd after) = []
  /\ after = run_ [] (initial_world (fresh lb size)).
Proof.
  intros H after. subst after.
  rewrite !(run_load_failure _ _ e H). cbn [fst snd stdout lines_read gen_calls initial_world].
  rewrite received_flush, text_print. cbn [text received fresh chunks pending concat app].
  repeat split.
  rewrite <- unlines_one, lines_of_unlines; [reflexivity|].
  constructor; [|constructor]. apply printable_no_LF.
  unfold fatal_json. rewrite <- error_json_dumps. apply json_dumps_printable.
Qed.


(** C10: the outer handler also covers the loop.  When the model has
    loaded, the first lines have arrived and been answered, and the next
    pull from the input raises with text m, the process adds the line
    [{"error": "Failed to load model: m"}] to the answers already written
    and leaves with status 1; the lines pulled before stay counted and
    nothing after the failure is read. *)
Theorem stream_failure_reported_as_load_failure
    (lb : bool) (size : N) (g : Pipeline)
    (ls : list pystr) (e : exn) (rest : list pull) :
  fst (load_ (initial_world (fresh lb size))) = Ok g ->
  let w0 := initial_world (fresh lb size) in
  let answered := received (stdout (snd (run_ (map Line ls) w0))) in
  let after := run_ (map Line ls ++ ReadError e :: rest) w0 in
  fst after = 1%Z
  /\ received (stdout (snd after)) = answered ++ fatal_json (exc_str e) ++ [LF]
  /\ lines (received (stdout (snd after)))
     = lines answered ++ [fatal_json (exc_str e)]
  /\ length (lines answered) = length ls
  /\ lines_read (snd after) = length ls
  /\ after = run_ (map Line ls ++ [ReadError e]) w0.
Proof.
  intros H w0 answered after. subst answered after.
  destruct (received_clean lb size g ls H) as (rs & L & Nl & R & T).
  fold w0 in R, T. rewrite R.
  rewrite !(run_stream_failure ls e _ w0 g H). cbn [fst snd stdout lines_read].
  rewrite received_flush, text_print, T.
  destruct (read_loop_lines g ls (snd (load_ w0))) as (rs' & _ & _ & _ & _ & Hn).
  destruct (load_frame w0) as (_ & Hl0 & _).
  rewrite Hn, Hl0. cbn [w0 initial_world lines_read Nat.add].
  assert (Hf : existsb (N.eqb LF) (fatal_json (exc_str e)) = false).
  { apply printable_no_LF. unfold fatal_json. rewrite <- error_json_dumps.
    apply json_dumps_printable. }
  repeat split.
  - rewrite <- unlines_one, <- unlines_app, !lines_of_unlines; [reflexivity | exact Nl |].
    apply Forall_app. split; [exact Nl | now constructor].
  - now rewrite lines_of_unlines by exact Nl.
Qed.


(** *** The claims about one line *)

(** C2: a line that decodes to an object whose [prompt] is absent, empty or
    white space only is answered with exactly
    [{"error": "Prompt is required."}], and the generator is not called. *)
Theorem blank_prompt_is_refused
    (g : Pipeline) (line : pystr) (d : list (pystr * pyval)) (w : world) :
  json_loads line = Ok (PDict d) ->
  blank_prompt d ->
  handle_line_ g line w = (Ok tt, after_print prompt_required_json w)
  /\ text (stdout (snd (handle_line_ g line w)))
     = text (stdout w) ++ prompt_required_json ++ [LF]
  /\ gen_calls (snd (handle_line_ g line w)) = gen_calls w.
Proof.
  intros Hd Hb.
  assert (Heq : handle_line_ g line w = (Ok tt, after_print prompt_required_json w)).
  { step_line. rewrite Hd. cbn [py_get]. unfold blank_prompt in Hb.
    destruct (dict_lookup (str_of "prompt") d) as [[| | | |s| |]|];
      try contradiction; cbn [py_strip].
    - now rewrite (strip_blank s Hb).
    - reflexivity. }
  rewrite Heq. unfold after_print, print_stdout. cbn [fst snd stdout gen_calls].
  repeat split. apply text_print.
Qed.

(** C3, as the code has it: a [prompt] that is present and not a string is
    not replaced by the empty string.  Stripping it raises
    [AttributeError], the text written for the line is exactly
    [{"error": "'T' object has no attribute 'strip'"}] and a line feed, T
    being the type of the value, and the generator is not called. *)
Theorem non_string_prompt_is_an_error
    (g : Pipeline) (line : pystr) (d : list (pystr * pyval)) (v : pyval) (w : world) :
  json_loads line = Ok (PDict d) ->
  dict_lookup (str_of "prompt") d = Some v ->
  is_str v = false ->
  handle_line_ g line w
  = (Ok tt, after_print (error_json (exc_str (AttributeError (type_name v) "strip"))) w)
  /\ text (stdout (snd (handle_line_ g line w)))
     = text (stdout w)
         ++ error_json (exc_str (AttributeError (type_name v) "strip")) ++ [LF]
  /\ gen_calls (snd (handle_line_ g line w)) = gen_calls w.
Proof.
  intros Hd Hv Hs.
  assert (Heq : handle_line_ g line w
      = (Ok tt, after_print (error_json (exc_str (AttributeError (type_name v) "strip"))) w)).
  { step_line. rewrite Hd. cbn [py_get]. rewrite Hv.
    destruct v; try discriminate; reflexivity. }
  rewrite Heq. unfold after_print, print_stdout. cbn [fst snd stdout gen_calls].
  repeat split. apply text_print.
Qed.

(** C4, as the code has it: a line that is not JSON fails in [json.loads],
    with the decoder's exception; a line that is JSON and not an object is
    decoded, and fails with the [AttributeError] of the missing [get].  In
    both cases the text written for the line is exactly [{"error": str(e)}]
    and a line feed, the generator is not called, and the loop goes on with
    the rest of the input. *)
Theorem undecodable_line_is_answered
    (g : Pipeline) (line : pystr) (rest : list pull) (w : world) :
  (exists e, json_loads line = Raise e)
  \/ (exists v, json_loads line = Ok v /\ is_dict v = false) ->
  exists e,
    (json_loads line = Raise e
     \/ exists v, json_loads line = Ok v /\ e = AttributeError (type_name v) "get")
    /\ line_body_ g line (snd (line_pulled w)) = (Raise e, snd (line_pulled w))
    /\ handle_line_ g line (snd (line_pulled w))
       = (Ok tt, after_print (error_json (exc_str e)) (snd (line_pulled w)))
    /\ text (stdout (snd (handle_line_ g line (snd (line_pulled w)))))
       = text (stdout w) ++ error_json (exc_str e) ++ [LF]
    /\ gen_calls (snd (handle_line_ g line (snd (line_pulled w)))) = gen_calls w
    /\ read_loop_ g (Line line :: rest) w
       = read_loop_ g rest
           (after_print (error_json (exc_str e)) (snd (line_pulled w))).
Proof.
  intros [[e He]|[v [Hv Hd]]].
  - exists e.
    assert (Hb : line_body_ g line (snd (line_pulled w)) = (Raise e, snd (line_pulled w))).
    { unfold line_body, bind, lift. now rewrite He. }
    assert (Hh : handle_line_ g line (snd (line_pulled w))
                 = (Ok tt, after_print (error_json (exc_str e)) (snd (line_pulled w)))).
    { unfold handle_line, try_except. now rewrite Hb. }
    rewrite read_loop_cons, Hh. repeat split; auto.
    unfold after_print, print_stdout. cbn [snd stdout line_pulled]. apply text_print.
  - exists (AttributeError (type_name v) "get").
    assert (Hb : line_body_ g line (snd (line_pulled w))
                 = (Raise (AttributeError (type_name v) "get"), snd (line_pulled w))).
    { unfold line_body, bind, lift. rewrite Hv.
      destruct v; try discriminate; reflexivity. }
    assert (Hh : handle_line_ g line (snd (line_pulled w))
                 = (Ok tt, after_print (error_json (exc_str (AttributeError (type_name v) "get")))
                             (snd (line_pulled w)))).
    { unfold handle_line, try_except. now rewrite Hb. }
    rewrite read_loop_cons, Hh. repeat split; eauto.
    unfold after_print, print_stdout. cbn [snd stdout line_pulled]. apply text_print.
Qed.

(** C5: for a prompt that is not empty after stripping, the generator is
    called exactly once, with the stripped prompt, [max_length=128] and
    [num_return_sequences=1].  When it returns candidates and the first has
    a generated text t, the text written for the line is exactly
    [{"result": t}] and a line feed; when it returns no candidate, it is
    [{"result": ""}] and a line feed. *)
Theorem generation_is_called_once_with_fixed_parameters
    (g : Pipeline) (line : pystr) (d : list (pystr * pyval)) (s : pystr) (w : world) :
  json_loads line = Ok (PDict d) ->
  dict_lookup (str_of "prompt") d = Some (PStr s) ->
  strip s <> [] ->
  gen_calls (snd (handle_line_ g line w))
  = gen_calls w ++ [GenCall (strip s) 128 1]
  /\ (forall first others t,
        call_pipeline g (gen_calls w) (strip s) 128%Z 1%Z = Ok (first :: others) ->
        dict_lookup (str_of "generated_text") first = Some t ->
        fst (handle_line_ g line w) = Ok tt
        /\ stdout (snd (handle_line_ g line w)) = print (result_json t) (stdout w)
        /\ text (stdout (snd (handle_line_ g line w)))
           = text (stdout w) ++ result_json t ++ [LF])
  /\ (call_pipeline g (gen_calls w) (strip s) 128%Z 1%Z = Ok [] ->
        fst (handle_line_ g line w) = Ok tt
        /\ stdout (snd (handle_line_ g line w)) = print (result_json []) (stdout w)
        /\ text (stdout (snd (handle_line_ g line w)))
           = text (stdout w) ++ result_json [] ++ [LF]).
Proof.
  intros Hd Hv Hs. step_line. rewrite Hd. cbn [py_get]. rewrite Hv. cbn [py_strip].
  destruct (strip s) as [|c p] eqn:Es; [contradiction|].
  case_on (call_pipeline g (gen_calls w) (c :: p) 128%Z 1%Z).
  - destruct a as [|first others].
    + split; [reflexivity|]. split; [discriminate|]. intros _.
      cbn [fst snd stdout]. repeat split. apply text_print.
    + unfold py_getitem.
      destruct (dict_lookup (str_of "generated_text") first) as [t|] eqn:Et;
        cbn [fst snd stdout gen_calls].
      * split; [reflexivity|]. split; [|discriminate].
        intros f o t' Hf Ht'. injection Hf as <- <-. rewrite Et in Ht'.
        injection Ht' as <-. repeat split. apply text_print.
      * split; [reflexivity|]. split; [|discriminate].
        intros f o t' Hf Ht'. injection Hf as <- <-. congruence.
  - split; [reflexivity|]. split; discriminate.
Qed.

(** C8: whatever exception the suite of a line raises, the handler of that
    line catches it: nothing had been written for the line, the handler
    writes the one line [{"error": str(e)}], the turn ends normally, and the
    loop goes on with the rest of the input.  No turn ever raises. *)
Theorem per_line_failure_is_answered
    (g : Pipeline) (line : pystr) (rest : list pull) (w w1 : world) (e : exn) :
  line_body_ g line (snd (line_pulled w)) = (Raise e, w1) ->
  stdout w1 = stdout w
  /\ handle_line_ g line (snd (line_pulled w))
     = (Ok tt, after_print (error_json (exc_str e)) w1)
  /\ text (stdout (snd (handle_line_ g line (snd (line_pulled w)))))
     = text (stdout w) ++ error_json (exc_str e) ++ [LF]
  /\ read_loop_ g (Line line :: rest) w
     = read_loop_ g rest (after_print (error_json (exc_str e)) w1)
  /\ (forall l' w', fst (handle_line_ g l' w') = Ok tt).
Proof.
  intros Hb.
  assert (Hh : handle_line_ g line (snd (line_pulled w))
               = (Ok tt, after_print (error_json (exc_str e)) w1)).
  { unfold handle_line, try_except. now rewrite Hb. }
  assert (Hs : stdout w1 = stdout w).
  { exact (line_body_raises_before_printing g line (snd (line_pulled w)) w1 e Hb). }
  rewrite read_loop_cons, Hh. cbn [snd].
  split; [exact Hs|]. split; [reflexivity|]. split.
  - unfold after_print, print_stdout. cbn [snd stdout]. now rewrite text_print, Hs.
  - split; [reflexivity|]. intros l' w'. apply handle_line_ok.
Qed.


End Properties.

(* ================================================================== *)
(** ** Further properties of [main] *)

Section Coverage.

Local Open Scope string_scope.
Local Open Scope list_scope.
Import Stream.

Variables Tokenizer CausalLM Pipeline : Type.
Variable AutoTokenizer_from_pretrained : string -> result Tokenizer.
Variable AutoModelForCausalLM_from_pretrained : string -> result CausalLM.
Variable pipeline : string -> CausalLM -> Tokenizer -> Z -> result Pipeline.
Variable call_pipeline :
  Pipeline -> list gen_call -> pystr -> Z -> Z -> result (list candidate).
Variable json_loads : pystr -> result pyval.

Local Abbreviation load_ :=
  (load AutoTokenizer_from_pretrained AutoModelForCausalLM_from_pretrained pipeline).
Local Abbreviation line_body_ := (line_body call_pipeline json_loads).
Local Abbreviation handle_line_ := (handle_line call_pipeline json_loads).
Local Abbreviation read_loop_ := (read_loop call_pipeline json_loads).
Local Abbreviation main_ :=
  (main AutoTokenizer_from_pretrained AutoModelForCausalLM_from_pretrained
     pipeline call_pipeline json_loads).
Local Abbreviation run_ :=
  (run AutoTokenizer_from_pretrained AutoModelForCausalLM_from_pretrained
     pipeline call_pipeline json_loads).

(** *** What [strip] leaves *)

Lemma lstrip_snoc (a : pystr) (c : N) :
  py_isspace c = false -> exists u, lstrip (a ++ [c]) = u ++ [c].
Proof.
  intros Hc. induction a as [|x a IH]; cbn [app lstrip].
  - rewrite Hc. now exists [].
  - destruct (py_isspace x); [exact IH|]. now exists (x :: a).
Qed.

Lemma rstrip_head (c : N) (t : pystr) :
  py_isspace c = false -> exists u, rstrip (c :: t) = c :: u.
Proof.
  intros Hc. unfold rstrip. cbn [rev].
  destruct (lstrip_snoc (rev t) c Hc) as [u ->].
  exists (rev u). now rewrite rev_app_distr.
Qed.

Lemma rstrip_last (t : pystr) (d : N) :
  rstrip t = [] \/ py_isspace (last (rstrip t) d) = false.
Proof.
  unfold rstrip. pose proof (lstrip_head (rev t)) as H.
  destruct (lstrip (rev t)) as [|y l]; [now left|].
  right. cbn [rev]. now rewrite last_last.
Qed.

(** A stripped string is empty or trimmed. *)
Lemma strip_trimmed (s : pystr) : strip s <> [] -> trimmed (strip s) = true.
Proof.
  unfold strip. pose proof (lstrip_head s) as Hh.
  destruct (lstrip s) as [|c t]; [intros H; now contradiction H|].
  intros Hne. destruct (rstrip_head c t Hh) as [u Hu].
  destruct (rstrip_last (c :: t) c) as [H|H]; [contradiction|].
  rewrite Hu in *. unfold trimmed. now rewrite Hh, H.
Qed.


(** *** One line, in full *)

Ltac replay :=
  let w := fresh "w" in
  intros w <-;
  unfold handle_line, try_except, line_body, bind, lift, call_generator,
    print_stdout; cbn [fst snd];
  repeat match goal with
         | H : ?t = _ |- context [?t] => rewrite H; cbn [py_strip py_get]
         end;
  reflexivity.

(** What a turn does depends on the world through the log of generator
    calls only.  It answers with an error and calls nothing, or it calls
    the generator once, with a trimmed prompt and the fixed parameters, and
    answers with a result or an error. *)
Lemma handle_line_spec (g : Pipeline) (line : pystr) (calls0 : list gen_call) :
  exists k v calls,
    ((k = str_of "error" /\ calls = calls0)
     \/ ((k = str_of "result" \/ k = str_of "error")
         /\ exists p, trimmed p = true /\ calls = calls0 ++ [GenCall p 128 1]))
    /\ forall w, gen_calls w = calls0 ->
         handle_line_ g line w
         = (Ok tt, World (lines_read w) (print (json_dumps [(k, v)]) (stdout w))
                     (stderr w) calls).
Proof.
  destruct (json_loads line) as [data|e] eqn:E1.
  2: { exists (str_of "error"), (exc_str e), calls0. split; [now left | replay]. }
  destruct (py_get data (str_of "prompt") (PStr [])) as [value|e] eqn:E2.
  2: { exists (str_of "error"), (exc_str e), calls0. split; [now left | replay]. }
  destruct (py_strip value) as [prompt|e] eqn:E3.
  2: { exists (str_of "error"), (exc_str e), calls0. split; [now left | replay]. }
  destruct prompt as [|c p].
  { exists (str_of "error"), (str_of "Prompt is required."), calls0.
    split; [now left | replay]. }
  assert (Ht : trimmed (c :: p) = true).
  { destruct value; try discriminate. cbn [py_strip] in E3. injection E3 as E3.
    rewrite <- E3. apply strip_trimmed. rewrite E3. discriminate. }
  destruct (call_pipeline g calls0 (c :: p) 128%Z 1%Z) as [output|e] eqn:E4.
  2: { exists (str_of "error"), (exc_str e), (calls0 ++ [GenCall (c :: p) 128 1]).
       split; [right; split; [now right | now exists (c :: p)] | replay]. }
  destruct output as [|first others].
  { exists (str_of "result"), [], (calls0 ++ [GenCall (c :: p) 128 1]).
    split; [right; split; [now left | now exists (c :: p)] | replay]. }
  destruct (py_getitem first "generated_text") as [t|e] eqn:E5.
  - exists (str_of "result"), t, (calls0 ++ [GenCall (c :: p) 128 1]).
    split; [right; split; [now left | now exists (c :: p)] | replay].
  - exists (str_of "error"), (exc_str e), (calls0 ++ [GenCall (c :: p) 128 1]).
    split; [right; split; [now right | now exists (c :: p)] | replay].
Qed.


(** *** The loop and the process, in full *)

Lemma read_loop_lines_spec (g : Pipeline) (ls : list pystr) (w : world) :
  exists rs,
    fst (read_loop_ g (map Line ls) w) = Ok tt
    /\ length rs = length ls
    /\ Forall answer_line rs
    /\ text (stdout (snd (read_loop_ g (map Line ls) w))) = text (stdout w) ++ unlines rs
    /\ lines_read (snd (read_loop_ g (map Line ls) w)) = (lines_read w + length ls)%nat
    /\ stderr (snd (read_loop_ g (map Line ls) w)) = stderr w
    /\ (Forall (fun c => fixed_call c = true) (gen_calls w) ->
        Forall (fun c => fixed_call c = true)
          (gen_calls (snd (read_loop_ g (map Line ls) w))))
    /\ (length (gen_calls (snd (read_loop_ g (map Line ls) w)))
        <= length (gen_calls w) + length ls)%nat.
Proof.
  revert w. induction ls as [|line ls IH]; intros w.
  - exists []. cbn. rewrite app_nil_r, !Nat.add_0_r. repeat split; auto.
  - cbn [map]. rewrite (read_loop_cons Pipeline call_pipeline json_loads).
    destruct (handle_line_spec g line (gen_calls w)) as (k & v & calls & Hc & Hh).
    rewrite (Hh (snd (line_pulled w)) eq_refl). cbn [snd].
    set (w1 := World _ _ _ calls).
    destruct (IH w1) as (rs & H1 & H2 & H3 & H4 & H5 & H6 & H7 & H8).
    exists (json_dumps [(k, v)] :: rs). repeat split.
    + exact H1.
    + cbn [length]. now rewrite H2.
    + constructor; [|exact H3]. exists k, v. split; [|reflexivity].
      destruct Hc as [[-> _]|[Hk _]]; [now right | exact Hk].
    + rewrite H4. subst w1. cbn [stdout line_pulled snd lines_read].
      rewrite text_print. unfold unlines. cbn [map concat].
      now rewrite <- !app_assoc.
    + rewrite H5. subst w1. cbn. lia.
    + rewrite H6. reflexivity.
    + intros Hf. apply H7. subst w1. cbn [gen_calls].
      destruct Hc as [[_ ->]|[_ (p & Hp & ->)]]; [exact Hf|].
      apply Forall_app. split; [exact Hf|]. constructor; [|constructor].
      unfold fixed_call. cbn [gc_prompt gc_max_length gc_num_return_sequences].
      now rewrite Hp.
    + subst w1. cbn [gen_calls length] in *.
      destruct Hc as [[_ ->]|[_ (p & Hp & ->)]]; [lia|].
      rewrite length_app in H8. cbn [length] in H8. lia.
Qed.

(** The three ways a run can go, with the world each one ends in. *)
Lemma run_cases (input : list pull) (w : world) :
  (exists e, fst (load_ w) = Raise e
     /\ run_ input w
        = (1%Z, at_exit (after_print (fatal_json (exc_str e)) (snd (load_ w)))))
  \/ (exists g ls, fst (load_ w) = Ok g /\ input = map Line ls
        /\ run_ input w
           = (0%Z, at_exit (snd (read_loop_ g (map Line ls) (snd (load_ w))))))
  \/ (exists g ls e rest,
        fst (load_ w) = Ok g /\ input = map Line ls ++ ReadError e :: rest
        /\ run_ input w
           = (1%Z, at_exit (after_print (fatal_json (exc_str e))
                              (snd (read_loop_ g (map Line ls) (snd (load_ w))))))).
Proof.
  rewrite run_unfold.
  destruct (fst (load_ w)) as [g|e] eqn:Hl.
  - destruct (input_shape input) as [[_ [ls ->]]|[_ (ls & e & rest & ->)]].
    + right. left. exists g, ls. repeat split.
      destruct (read_loop_lines Pipeline call_pipeline json_loads g ls (snd (load_ w)))
        as (rs & Hok & _).
      now rewrite (main_returns _ _ _ _ _ _ _ _ _ w g Hl Hok).
    + right. right. exists g, ls, e, rest. repeat split.
      assert (Hr : read_loop_ g (map Line ls ++ ReadError e :: rest) (snd (load_ w))
                   = (Raise e, snd (read_loop_ g (map Line ls) (snd (load_ w))))).
      { now rewrite read_loop_app. }
      rewrite (main_read_fails _ _ _ _ _ _ _ _ _ w g e Hl (f_equal fst Hr)), Hr.
      reflexivity.
  - left. exists e. split; [reflexivity|].
    now rewrite (main_load_fails _ _ _ _ _ _ _ _ input w e Hl).
Qed.

Lemma answer_line_printable (r : pystr) :
  answer_line r -> forallb printableb r = true.
Proof. intros (k & v & _ & ->). apply json_dumps_printable. Qed.

Lemma fatal_answer_line (m : pystr) : answer_line (fatal_json m).
Proof.
  exists (str_of "error"), (str_of "Failed to load model: " ++ m).
  split; [now right | reflexivity].
Qed.

(** *** Whole runs, whatever the input *)

(** X1: everything the consumer receives from a run, whatever the input and
    whether or not the model loads, is a sequence of complete lines, each
    one the JSON object of an answer with the single key [result] or
    [error], in printable ASCII; there is one line per line read, and one
    more exactly when the process leaves with a status other than 0. *)
Theorem output_is_complete_answer_lines (lb : bool) (size : N) (input : list pull) :
  exists rs,
    received (stdout (snd (run_ input (initial_world (fresh lb size))))) = unlines rs
    /\ Forall answer_line rs
    /\ Forall (fun r => forallb printableb r = true) rs
    /\ length rs
       = (lines_read (snd (run_ input (initial_world (fresh lb size))))
          + (if (fst (run_ input (initial_world (fresh lb size))) =? 0)%Z
             then 0 else 1))%nat.
Proof.
  set (w0 := initial_world (fresh lb size)).
  destruct (load_frame _ _ _ AutoTokenizer_from_pretrained
              AutoModelForCausalLM_from_pretrained pipeline w0) as (Hs & Hn & _).
  assert (Hall : forall rs, Forall answer_line rs ->
                   Forall (fun r => forallb printableb r = true) rs).
  { intros rs H. eapply Forall_impl; [|exact H]. apply answer_line_printable. }
  destruct (run_cases input w0)
    as [(e & Hl & ->)|[(g & ls & Hl & -> & ->)|(g & ls & e & rest & Hl & -> & ->)]];
    cbn [fst snd at_exit stdout lines_read after_print print_stdout Z.eqb];
    rewrite received_flush.
  - exists [fatal_json (exc_str e)].
    assert (Ha : Forall answer_line [fatal_json (exc_str e)])
      by (constructor; [apply fatal_answer_line | constructor]).
    rewrite text_print, Hs, Hn, unlines_one. cbn. repeat split; auto.
  - destruct (read_loop_lines_spec g ls (snd (load_ w0)))
      as (rs & _ & L & A & T & R & _).
    exists rs. rewrite T, R, Hs, Hn, L. cbn. repeat split; auto; lia.
  - destruct (read_loop_lines_spec g ls (snd (load_ w0)))
      as (rs & _ & L & A & T & R & _).
    exists (rs ++ [fatal_json (exc_str e)]).
    assert (Ha : Forall answer_line (rs ++ [fatal_json (exc_str e)])).
    { apply Forall_app. split; [exact A|].
      constructor; [apply fatal_answer_line | constructor]. }
    rewrite text_print, T, R, Hs, Hn, unlines_app, unlines_one, length_app, L.
    cbn. repeat split; auto; lia.
Qed.

(** X2: in every run the generator is called at most once per line read,
    and every call has a prompt that is not empty and has no white space at
    either end, [max_length=128] and [num_return_sequences=1]. *)
Theorem generator_calls_are_fixed (lb : bool) (size : N) (input : list pull) :
  Forall (fun c => fixed_call c = true)
    (gen_calls (snd (run_ input (initial_world (fresh lb size)))))
  /\ (length (gen_calls (snd (run_ input (initial_world (fresh lb size)))))
      <= lines_read (snd (run_ input (initial_world (fresh lb size)))))%nat.
Proof.
  set (w0 := initial_world (fresh lb size)).
  destruct (load_frame _ _ _ AutoTokenizer_from_pretrained
              AutoModelForCausalLM_from_pretrained pipeline w0) as (_ & Hn & Hg).
  destruct (run_cases input w0)
    as [(e & Hl & ->)|[(g & ls & Hl & -> & ->)|(g & ls & e & rest & Hl & -> & ->)]];
    cbn [fst snd at_exit gen_calls lines_read after_print print_stdout].
  - rewrite Hg. cbn. split; [constructor | lia].
  - destruct (read_loop_lines_spec g ls (snd (load_ w0)))
      as (rs & _ & _ & _ & _ & R & _ & F & C).
    rewrite Hg in F, C. rewrite R, Hn. cbn in *. split; [apply F; constructor | lia].
  - destruct (read_loop_lines_spec g ls (snd (load_ w0)))
      as (rs & _ & _ & _ & _ & R & _ & F & C).
    rewrite Hg in F, C. rewrite R, Hn. cbn in *. split; [apply F; constructor | lia].
Qed.

(** *** One line: the generator's part *)

(** X4: when the generator raises on a prompt, it has been called once and
    is not called again for that line: the text written for the line is
    exactly [{"error": str(e)}] and a line feed, and the loop goes on with
    the rest of the input. *)
Theorem generator_failure_is_answered
    (g : Pipeline) (line : pystr) (rest : list pull)
    (d : list (pystr * pyval)) (s : pystr) (e : exn) (w : world) :
  json_loads line = Ok (PDict d) ->
  dict_lookup (str_of "prompt") d = Some (PStr s) ->
  strip s <> [] ->
  call_pipeline g (gen_calls w) (strip s) 128%Z 1%Z = Raise e ->
  handle_line_ g line (snd (line_pulled w))
  = (Ok tt, World (S (lines_read w)) (print (error_json (exc_str e)) (stdout w))
              (stderr w) (gen_calls w ++ [GenCall (strip s) 128 1]))
  /\ text (stdout (snd (handle_line_ g line (snd (line_pulled w)))))
     = text (stdout w) ++ error_json (exc_str e) ++ [LF]
  /\ read_loop_ g (Line line :: rest) w
     = read_loop_ g rest
         (World (S (lines_read w)) (print (error_json (exc_str e)) (stdout w))
            (stderr w) (gen_calls w ++ [GenCall (strip s) 128 1])).
Proof.
  intros Hd Hv Hs He.
  assert (Hgen : forall w0,
             call_pipeline g (gen_calls w0) (strip s) 128%Z 1%Z = Raise e ->
             handle_line_ g line w0
             = (Ok tt, World (lines_read w0)
                         (print (error_json (exc_str e)) (stdout w0))
                         (stderr w0) (gen_calls w0 ++ [GenCall (strip s) 128 1]))).
  { intros w0 H0.
    unfold handle_line, try_except, line_body, bind, lift, call_generator,
      print_stdout. cbn [fst snd].
    rewrite Hd. cbn [py_get]. rewrite Hv. cbn [py_strip].
    destruct (strip s) as [|c p]; [contradiction|]. now rewrite H0. }
  pose proof (Hgen (snd (line_pulled w)) He) as Hh.
  split; [exact Hh|]. split.
  - rewrite Hh. cbn [snd stdout line_pulled]. apply text_print.
  - now rewrite (read_loop_cons Pipeline call_pipeline json_loads), Hh.
Qed.

(** X5: when the first candidate the generator returns has no
    [generated_text], the subscript raises [KeyError]: after the one call the
    text written for the line is exactly [{"error": "'generated_text'"}] and
    a line feed, not a result, whatever the other candidates hold. *)
Theorem candidate_without_text_is_an_error
    (g : Pipeline) (line : pystr) (d : list (pystr * pyval)) (s : pystr)
    (first : candidate) (others : list candidate) (w : world) :
  json_loads line = Ok (PDict d) ->
  dict_lookup (str_of "prompt") d = Some (PStr s) ->
  strip s <> [] ->
  call_pipeline g (gen_calls w) (strip s) 128%Z 1%Z = Ok (first :: others) ->
  dict_lookup (str_of "generated_text") first = None ->
  handle_line_ g line w
  = (Ok tt, World (lines_read w)
              (print (error_json (str_of "'generated_text'")) (stdout w))
              (stderr w) (gen_calls w ++ [GenCall (strip s) 128 1]))
  /\ text (stdout (snd (handle_line_ g line w)))
     = text (stdout w) ++ error_json (str_of "'generated_text'") ++ [LF].
Proof.
  intros Hd Hv Hs Ho Hk.
  assert (Hh : handle_line_ g line w
               = (Ok tt, World (lines_read w)
                           (print (error_json (str_of "'generated_text'")) (stdout w))
                           (stderr w) (gen_calls w ++ [GenCall (strip s) 128 1]))).
  { unfold handle_line, try_except, line_body, bind, lift, call_generator,
      print_stdout. cbn [fst snd].
    rewrite Hd. cbn [py_get]. rewrite Hv. cbn [py_strip].
    destruct (strip s) as [|c p]; [contradiction|]. rewrite Ho.
    unfold py_getitem. now rewrite Hk. }
  rewrite Hh. split; [reflexivity|]. cbn [snd stdout]. apply text_print.
Qed.

(** X6: a turn that does not call the generator writes an error: the text
    it adds to [sys.stdout] is [{"error": m}] and a line feed for some m, so
    no result is written that the generator did not give. *)
Theorem no_result_without_generation (g : Pipeline) (line : pystr) (w : world) :
  gen_calls (snd (handle_line_ g line w)) = gen_calls w ->
  exists m,
    stdout (snd (handle_line_ g line w)) = print (error_json m) (stdout w)
    /\ text (stdout (snd (handle_line_ g line w)))
       = text (stdout w) ++ error_json m ++ [LF].
Proof.
  destruct (handle_line_spec g line (gen_calls w)) as (k & v & calls & Hc & Hh).
  rewrite (Hh w eq_refl). cbn [snd gen_calls stdout]. intros Hg.
  destruct Hc as [[-> _]|[_ (p & _ & ->)]].
  - exists v. split; [reflexivity | apply text_print].
  - apply (f_equal (@length gen_call)) in Hg. rewrite length_app in Hg.
    cbn [length] in Hg. lia.
Qed.

(** *** Buffering *)

Lemma alike_refl_fresh (lb lb' : bool) (size size' : N) :
  alike (initial_world (fresh lb size)) (initial_world (fresh lb' size')).
Proof. repeat split. Qed.

Lemma load_alike (w w' : world) :
  alike w w' ->
  fst (load_ w) = fst (load_ w') /\ alike (snd (load_ w)) (snd (load_ w')).
Proof.
  intros (H1 & H2 & H3 & H4). unfold load, bind, lift, print_stderr, ret, alike.
  cbn [fst snd].
  destruct (AutoTokenizer_from_pretrained MODEL_NAME) as [t|e];
    cbn [fst snd lines_read stdout stderr gen_calls]; [|now rewrite H3].
  destruct (AutoModelForCausalLM_from_pretrained MODEL_NAME) as [m|e];
    cbn [fst snd lines_read stdout stderr gen_calls]; [|now rewrite H3].
  destruct (pipeline "text-generation" m t (-1)) as [g|e];
    cbn [fst snd lines_read stdout stderr gen_calls]; now rewrite H3.
Qed.

Lemma handle_line_alike (g : Pipeline) (line : pystr) (w w' : world) :
  alike w w' ->
  fst (handle_line_ g line w) = fst (handle_line_ g line w')
  /\ alike (snd (handle_line_ g line w)) (snd (handle_line_ g line w')).
Proof.
  intros (H1 & H2 & H3 & H4).
  destruct (handle_line_spec g line (gen_calls w)) as (k & v & calls & _ & Hh).
  rewrite (Hh w eq_refl), (Hh w' (eq_sym H4)). unfold alike.
  cbn [fst snd lines_read stdout stderr gen_calls].
  now rewrite !text_print, H2.
Qed.

Lemma read_loop_alike (g : Pipeline) (input : list pull) (w w' : world) :
  alike w w' ->
  fst (read_loop_ g input w) = fst (read_loop_ g input w')
  /\ alike (snd (read_loop_ g input w)) (snd (read_loop_ g input w')).
Proof.
  revert w w'. induction input as [|[line|e] input IH]; intros w w' Ha.
  - now split.
  - rewrite !(read_loop_cons Pipeline call_pipeline json_loads). apply IH.
    apply handle_line_alike. destruct Ha as (H1 & H2 & H3 & H4).
    unfold alike, line_pulled. cbn [snd lines_read stdout stderr gen_calls].
    now rewrite H1.
  - now split.
Qed.

Lemma after_print_alike (s : pystr) (w w' : world) :
  alike w w' -> alike (after_print s w) (after_print s w').
Proof.
  intros (H1 & H2 & H3 & H4). unfold alike, after_print, print_stdout.
  cbn [snd lines_read stdout stderr gen_calls]. now rewrite !text_print, H2.
Qed.

Lemma main_alike (input : list pull) (w w' : world) :
  alike w w' ->
  fst (main_ input w) = fst (main_ input w')
  /\ alike (snd (main_ input w)) (snd (main_ input w')).
Proof.
  intros Ha. destruct (load_alike w w' Ha) as [Hf Hl].
  unfold main, bind.
  destruct (load_ w) as [[g|e] w1]; destruct (load_ w') as [[g'|e'] w1'];
    cbn [fst snd] in *; try discriminate.
  - injection Hf as <-.
    destruct (read_loop_alike g input w1 w1' Hl) as [Hr Hw].
    destruct (read_loop_ g input w1) as [[u|e] w2];
      destruct (read_loop_ g input w1') as [[u'|e'] w2'];
      cbn [fst snd] in *; try discriminate.
    + now split.
    + injection Hr as <-. split; [reflexivity|]. now apply after_print_alike.
  - injection Hf as <-. split; [reflexivity|]. now apply after_print_alike.
Qed.

(** X7: how [sys.stdout] is buffered changes when the consumer gets the
    answers, never what it gets: two runs over the same input that differ
    in the buffering only end with the same status, the same text received,
    the same lines read and the same calls of the generator. *)
Theorem buffering_changes_timing_only
    (lb lb' : bool) (size size' : N) (input : list pull) :
  fst (run_ input (initial_world (fresh lb size)))
  = fst (run_ input (initial_world (fresh lb' size')))
  /\ received (stdout (snd (run_ input (initial_world (fresh lb size)))))
     = received (stdout (snd (run_ input (initial_world (fresh lb' size')))))
  /\ lines_read (snd (run_ input (initial_world (fresh lb size))))
     = lines_read (snd (run_ input (initial_world (fresh lb' size'))))
  /\ gen_calls (snd (run_ input (initial_world (fresh lb size))))
     = gen_calls (snd (run_ input (initial_world (fresh lb' size')))).
Proof.
  destruct (main_alike input _ _ (alike_refl_fresh lb lb' size size'))
    as (Hf & H1 & H2 & H3 & H4).
  rewrite !run_unfold. cbn [fst snd stdout lines_read gen_calls].
  rewrite !received_flush, Hf. now repeat split.
Qed.


(** *** The encoding of a text can be read back *)

Lemma hex_digit_inj (a b : N) :
  (a < 16)%N -> (b < 16)%N -> hex_digit a = hex_digit b -> a = b.
Proof.
  unfold hex_digit. intros Ha Hb.
  destruct (N.ltb_spec a 10), (N.ltb_spec b 10); lia.
Qed.

(** A number below 16^4 is the sum of its four hexadecimal digits. *)
Lemma hex_digits_sum (a : N) :
  (a < 65536)%N ->
  (a = 4096 * ((a / 4096) mod 16) + 256 * ((a / 256) mod 16)
       + 16 * ((a / 16) mod 16) + a mod 16)%N.
Proof.
  intros Ha.
  pose proof (N.div_mod a 16 ltac:(discriminate)) as E0.
  pose proof (N.div_mod (a / 16) 16 ltac:(discriminate)) as E1.
  pose proof (N.div_mod (a / 256) 16 ltac:(discriminate)) as E2.
  rewrite (N.Div0.div_div a 16 16) in E1. change (16 * 16)%N with 256%N in E1.
  rewrite (N.Div0.div_div a 256 16) in E2. change (256 * 16)%N with 4096%N in E2.
  assert (H : (a / 4096 < 16)%N) by (apply N.Div0.div_lt_upper_bound; exact Ha).
  rewrite (N.mod_small (a / 4096) 16 H).
  generalize dependent (a mod 16)%N. generalize dependent ((a / 16) mod 16)%N.
  generalize dependent ((a / 256) mod 16)%N. generalize dependent (a / 4096)%N.
  generalize dependent (a / 256)%N. generalize dependent (a / 16)%N.
  intros. lia.
Qed.

Lemma nibbles_eq (a b : N) :
  (a < 65536)%N -> (b < 65536)%N ->
  ((a / 4096) mod 16 = (b / 4096) mod 16)%N ->
  ((a / 256) mod 16 = (b / 256) mod 16)%N ->
  ((a / 16) mod 16 = (b / 16) mod 16)%N ->
  (a mod 16 = b mod 16)%N -> a = b.
Proof.
  intros Ha Hb H3 H2 H1 H0.
  rewrite (hex_digits_sum a Ha), (hex_digits_sum b Hb). congruence.
Qed.

Lemma u_escape_inj (a b : N) (r1 r2 : pystr) :
  (a < 65536)%N -> (b < 65536)%N ->
  u_escape a ++ r1 = u_escape b ++ r2 -> a = b /\ r1 = r2.
Proof.
  intros Ha Hb H. unfold u_escape in H. cbn [app] in H.
  injection H as H3 H2 H1 H0 Hr.
  split; [|exact Hr].
  apply nibbles_eq; try assumption;
    apply hex_digit_inj; try assumption; apply N.mod_lt; discriminate.
Qed.


Lemma lor_low_bits (base x : N) :
  N.land base 0x3ff = 0%N ->
  N.lor base (N.land x 0x3ff) = (base + x mod 1024)%N.
Proof.
  intros H.
  assert (H0 : N.land base (N.land x 0x3ff) = 0%N).
  { rewrite (N.land_comm x), N.land_assoc, H. apply N.land_0_l. }
  rewrite <- (N.lxor_lor _ _ H0), <- (N.add_nocarry_lxor _ _ H0).
  change 0x3ff%N with (N.ones 10). now rewrite N.land_ones.
Qed.

Lemma scalar_spec (c : N) :
  scalar c = true <-> (c < 0xD800 \/ (0xDFFF < c /\ c < 0x110000))%N.
Proof.
  unfold scalar. now rewrite orb_true_iff, andb_true_iff, !N.ltb_lt.
Qed.

(** The four shapes of the escape of a scalar value. *)
Lemma escape_char_form (c : N) :
  scalar c = true ->
  (exists x, escape_char c = [BACKSLASH; x] /\ x <> 117%N /\ c = short_source x)
  \/ (escape_char c = [c] /\ c <> BACKSLASH)
  \/ (escape_char c = u_escape c
      /\ (c < 0xD800 \/ (0xDFFF < c /\ c < 65536))%N)
  \/ (exists n, (n < 1048576)%N /\ c = (n + 65536)%N
        /\ escape_char c
           = u_escape (0xd800 + (n / 1024) mod 1024)
               ++ u_escape (0xdc00 + n mod 1024)).
Proof.
  intros Hs. apply scalar_spec in Hs. unfold escape_char.
  destruct (N.eqb_spec c BACKSLASH) as [->|H1];
    [left; exists BACKSLASH; repeat split; discriminate|].
  destruct (N.eqb_spec c DQUOTE) as [->|H2];
    [left; exists DQUOTE; repeat split; discriminate|].
  destruct (N.eqb_spec c 8) as [->|H3];
    [left; exists 98%N; repeat split; discriminate|].
  destruct (N.eqb_spec c 12) as [->|H4];
    [left; exists 102%N; repeat split; discriminate|].
  destruct (N.eqb_spec c 10) as [->|H5];
    [left; exists 110%N; repeat split; discriminate|].
  destruct (N.eqb_spec c 13) as [->|H6];
    [left; exists 114%N; repeat split; discriminate|].
  destruct (N.eqb_spec c 9) as [->|H7];
    [left; exists 116%N; repeat split; discriminate|].
  destruct ((32 <=? c)%N && (c <=? 126)%N); [right; left; now split|].
  destruct (N.ltb_spec c 65536) as [Hlt|Hge].
  - right. right. left. split; [reflexivity | lia].
  - right. right. right. exists (c - 65536)%N. cbv zeta.
    split; [lia|]. split; [lia|].
    rewrite !lor_low_bits by reflexivity.
    now rewrite N.shiftr_div_pow2.
Qed.

Lemma surrogate_bounds (m : N) :
  (0xd800 + m mod 1024 < 65536)%N /\ (0xdc00 + m mod 1024 < 65536)%N
  /\ (0xD800 <= 0xd800 + m mod 1024 <= 0xDFFF)%N.
Proof.
  pose proof (N.mod_lt m 1024 ltac:(discriminate)) as H.
  generalize dependent (m mod 1024)%N. intros. lia.
Qed.

(** No escape of a scalar value begins another one: the first character of
    an encoded text can be read back, with what follows it. *)
Lemma escape_char_prefix_free (c1 c2 : N) (r1 r2 : pystr) :
  scalar c1 = true -> scalar c2 = true ->
  escape_char c1 ++ r1 = escape_char c2 ++ r2 -> c1 = c2 /\ r1 = r2.
Proof.
  intros S1 S2 H.
  destruct (escape_char_form c1 S1)
    as [(x1 & E1 & N1 & C1)|[(E1 & N1)|[(E1 & B1)|(n1 & B1 & C1 & E1)]]];
  destruct (escape_char_form c2 S2)
    as [(x2 & E2 & N2 & C2)|[(E2 & N2)|[(E2 & B2)|(n2 & B2 & C2 & E2)]]];
  rewrite E1, E2 in H; clear E1 E2; unfold u_escape, BACKSLASH in *;
  cbn [app] in H.
  (* short / short, short / others *)
  - injection H as Hx Hr. subst x2. split; [congruence | exact Hr].
  - injection H as Hc. congruence.
  - injection H as Hx. congruence.
  - injection H as Hx. congruence.
  (* printable / others *)
  - injection H as Hc. congruence.
  - injection H as Hc Hr. now split.
  - injection H as Hc. congruence.
  - injection H as Hc. congruence.
  (* one unit / others *)
  - injection H as Hx. congruence.
  - injection H as Hc. congruence.
  - apply (u_escape_inj c1 c2 r1 r2); [lia | lia | exact H].
  - destruct (surrogate_bounds (n2 / 1024)) as (Hb & _ & Hr).
    destruct (u_escape_inj c1 _ r1 _ ltac:(lia) Hb H) as [Hc _]. lia.
  (* two units / others *)
  - injection H as Hx. congruence.
  - injection H as Hc. congruence.
  - destruct (surrogate_bounds (n1 / 1024)) as (Hb & _ & Hr).
    destruct (u_escape_inj _ c2 _ r2 Hb ltac:(lia) H) as [Hc _]. lia.
  - destruct (surrogate_bounds (n1 / 1024)) as (Hb1 & _ & _).
    destruct (surrogate_bounds (n2 / 1024)) as (Hb2 & _ & _).
    destruct (surrogate_bounds n1) as (_ & Hl1 & _).
    destruct (surrogate_bounds n2) as (_ & Hl2 & _).
    destruct (u_escape_inj _ _ _ _ Hb1 Hb2 H) as [Hhi Hrest].
    destruct (u_escape_inj _ _ _ _ Hl1 Hl2 Hrest) as [Hlo Hr].
    split; [|exact Hr]. subst c1 c2. f_equal.
    assert (D1 : (n1 / 1024 < 1024)%N) by (apply N.Div0.div_lt_upper_bound; exact B1).
    assert (D2 : (n2 / 1024 < 1024)%N) by (apply N.Div0.div_lt_upper_bound; exact B2).
    rewrite (N.mod_small _ _ D1), (N.mod_small _ _ D2) in Hhi.
    rewrite (N.div_mod n1 1024), (N.div_mod n2 1024) by discriminate.
    generalize dependent (n1 mod 1024)%N. generalize dependent (n2 mod 1024)%N.
    generalize dependent (n1 / 1024)%N. generalize dependent (n2 / 1024)%N.
    intros. lia.
Qed.


Lemma escape_char_not_nil (c : N) : escape_char c <> [].
Proof.
  unfold escape_char, u_escape.
  repeat match goal with
         | |- context [if ?b then _ else _] => destruct b; [discriminate|]
         end.
  discriminate.
Qed.

Lemma escaped_text_inj (s1 s2 : pystr) :
  forallb scalar s1 = true -> forallb scalar s2 = true ->
  flat_map escape_char s1 = flat_map escape_char s2 -> s1 = s2.
Proof.
  revert s2. induction s1 as [|c1 s1 IH]; intros [|c2 s2] S1 S2 H;
    cbn [flat_map forallb] in *.
  - reflexivity.
  - symmetry in H. apply app_eq_nil in H. now destruct (escape_char_not_nil c2).
  - apply app_eq_nil in H. now destruct (escape_char_not_nil c1).
  - apply andb_true_iff in S1. apply andb_true_iff in S2.
    destruct S1 as [Sc1 S1], S2 as [Sc2 S2].
    destruct (escape_char_prefix_free c1 c2 _ _ Sc1 Sc2 H) as [-> Hr].
    f_equal. now apply IH.
Qed.

Lemma json_dumps_single (k v : pystr) :
  json_dumps [(k, v)]
  = (str_of "{" ++ py_encode_basestring_ascii k ++ str_of ": " ++ [DQUOTE])
      ++ flat_map escape_char v ++ [DQUOTE; 125%N].
Proof.
  unfold json_dumps, json_item, py_encode_basestring_ascii.
  cbn [map join fst snd].
  change (str_of "}") with [125%N]. change (str_of "{") with [123%N].
  change (str_of ": ") with [58%N; 32%N].
  repeat (cbn [app]; rewrite <- ?app_assoc). reflexivity.
Qed.

(** X8: a line of output can be read back.  When two answers are made of
    Unicode scalar values and are written as the same line, they are the
    same answer: the same key, [result] or [error], and the same text. *)
Theorem answer_can_be_read_back (k1 k2 v1 v2 : pystr) :
  (k1 = str_of "result" \/ k1 = str_of "error") ->
  (k2 = str_of "result" \/ k2 = str_of "error") ->
  forallb scalar v1 = true -> forallb scalar v2 = true ->
  json_dumps [(k1, v1)] = json_dumps [(k2, v2)] ->
  k1 = k2 /\ v1 = v2.
Proof.
  intros K1 K2 S1 S2 H. rewrite !json_dumps_single in H.
  assert (Hr : (str_of "{" ++ py_encode_basestring_ascii (str_of "result")
                  ++ str_of ": " ++ [DQUOTE])
               = [123; 34; 114; 101; 115; 117; 108; 116; 34; 58; 32; 34]%N)
    by (vm_compute; reflexivity).
  assert (He : (str_of "{" ++ py_encode_basestring_ascii (str_of "error")
                  ++ str_of ": " ++ [DQUOTE])
               = [123; 34; 101; 114; 114; 111; 114; 34; 58; 32; 34]%N)
    by (vm_compute; reflexivity).
  destruct K1 as [->| ->], K2 as [->| ->];
    rewrite ?Hr, ?He in H; cbn [app] in H; try discriminate.
  - split; [reflexivity|]. apply escaped_text_inj; try assumption.
    injection H as H. now apply app_inv_tail in H.
  - split; [reflexivity|]. apply escaped_text_inj; try assumption.
    injection H as H. now apply app_inv_tail in H.
Qed.


(** *** A line-buffered channel *)

(** X9: on a line-buffered [sys.stdout] with nothing pending, the loop
    never leaves an answer behind: after any number of lines everything
    written has been handed to the consumer. *)
Theorem line_buffered_answers_arrive_at_once
    (g : Pipeline) (ls : list pystr) (w : world) :
  line_buffering (stdout w) = true ->
  pending (stdout w) = [] ->
  pending (stdout (snd (read_loop_ g (map Line ls) w))) = []
  /\ received (stdout (snd (read_loop_ g (map Line ls) w)))
     = text (stdout (snd (read_loop_ g (map Line ls) w)))
  /\ line_buffering (stdout (snd (read_loop_ g (map Line ls) w))) = true.
Proof.
  revert w. induction ls as [|line ls IH]; intros w Hb Hp.
  - cbn. unfold text. rewrite Hp, app_nil_r. now repeat split.
  - cbn [map]. rewrite (read_loop_cons Pipeline call_pipeline json_loads).
    destruct (handle_line_spec g line (gen_calls w)) as (k & v & calls & _ & Hh).
    rewrite (Hh (snd (line_pulled w)) eq_refl). cbn [snd]. apply IH.
    + cbn [stdout line_pulled snd]. unfold print.
      now rewrite !line_buffering_write.
    + cbn [stdout line_pulled snd]. now apply pending_print_line_buffered.
Qed.

End Coverage.

(* ================================================================== *)
(** ** The service in the [Demo] environment *)

Section Instances.

Local Open Scope string_scope.
Local Open Scope list_scope.
Import Stream.

Local Abbreviation demo_load :=
  (load Demo.load_tokenizer Demo.load_model Demo.make_pipeline).
Local Abbreviation demo_run :=
  (run Demo.load_tokenizer Demo.load_model Demo.make_pipeline Demo.generate Demo.loads).
Local Abbreviation demo_body := (line_body Demo.generate Demo.loads tt).
Local Abbreviation demo_handle := (handle_line Demo.generate Demo.loads tt).
Local Abbreviation demo_loop := (read_loop Demo.generate Demo.loads tt).
Local Abbreviation start := (initial_world Demo.piped).

(** Three lines, of which the second is not JSON and the third asks for
    nothing: three lines of output, in that order. *)
Lemma one_output_line_per_input_line_witness :
  fst (demo_load start) = Ok tt
  /\ lines (received (stdout (snd (demo_run
        (map Line [Demo.line_market; Demo.line_not_json; Demo.line_empty]) start))))
     = [result_json (str_of "The stock market is up");
        error_json (str_of "Expecting value: line 1 column 1 (char 0)");
        prompt_required_json]
  /\ length (lines (received (stdout (snd (demo_run
        (map Line [Demo.line_market; Demo.line_not_json; Demo.line_empty]) start)))))
     = 3%nat
  /\ forall k, (k <= 3)%nat ->
       lines (received (stdout (snd (demo_run
         (map Line (firstn k [Demo.line_market; Demo.line_not_json; Demo.line_empty]))
         start))))
       = firstn k (lines (received (stdout (snd (demo_run
           (map Line [Demo.line_market; Demo.line_not_json; Demo.line_empty]) start))))).
Proof.
  assert (H : fst (demo_load start) = Ok tt) by reflexivity.
  split; [exact H|]. split; [vm_compute; reflexivity|].
  exact (one_output_line_per_input_line unit unit unit
           Demo.load_tokenizer Demo.load_model Demo.make_pipeline
           Demo.generate Demo.loads false 8192%N tt
           [Demo.line_market; Demo.line_not_json; Demo.line_empty] H).
Defined.

(** A prompt of three spaces. *)
Lemma blank_prompt_is_refused_witness :
  Demo.loads Demo.line_blank = Ok (PDict [(str_of "prompt", PStr (str_of "   "))])
  /\ blank_prompt [(str_of "prompt", PStr (str_of "   "))]
  /\ demo_handle Demo.line_blank start = (Ok tt, after_print prompt_required_json start)
  /\ text (stdout (snd (demo_handle Demo.line_blank start)))
     = text (stdout start) ++ prompt_required_json ++ [LF]
  /\ gen_calls (snd (demo_handle Demo.line_blank start)) = gen_calls start.
Proof.
  assert (H1 : Demo.loads Demo.line_blank
               = Ok (PDict [(str_of "prompt", PStr (str_of "   "))]))
    by (vm_compute; reflexivity).
  assert (H2 : blank_prompt [(str_of "prompt", PStr (str_of "   "))])
    by (vm_compute; reflexivity).
  split; [exact H1|]. split; [exact H2|].
  exact (blank_prompt_is_refused unit Demo.generate Demo.loads tt Demo.line_blank
           [(str_of "prompt", PStr (str_of "   "))] start H1 H2).
Defined.

(** The line [{"prompt": 5}] is answered with the error of [int.strip],
    which is not [{"error": "Prompt is required."}]. *)
Lemma non_string_prompt_counterexample :
  Demo.loads Demo.line_number = Ok (PDict [(str_of "prompt", PInt 5)])
  /\ lines (text (stdout (snd (demo_handle Demo.line_number start))))
     = [error_json (str_of "'int' object has no attribute 'strip'")]
  /\ str_eqb (error_json (str_of "'int' object has no attribute 'strip'"))
       prompt_required_json = false.
Proof. repeat split; vm_compute; reflexivity. Qed.

(** The line [{"prompt": null}]. *)
Lemma non_string_prompt_is_an_error_witness :
  Demo.loads Demo.line_null = Ok (PDict [(str_of "prompt", PNone)])
  /\ dict_lookup (str_of "prompt") [(str_of "prompt", PNone)] = Some PNone
  /\ is_str PNone = false
  /\ demo_handle Demo.line_null start
     = (Ok tt, after_print
                 (error_json (str_of "'NoneType' object has no attribute 'strip'")) start)
  /\ text (stdout (snd (demo_handle Demo.line_null start)))
     = text (stdout start)
         ++ error_json (str_of "'NoneType' object has no attribute 'strip'") ++ [LF]
  /\ gen_calls (snd (demo_handle Demo.line_null start)) = gen_calls start.
Proof.
  assert (H1 : Demo.loads Demo.line_null = Ok (PDict [(str_of "prompt", PNone)]))
    by (vm_compute; reflexivity).
  assert (H2 : dict_lookup (str_of "prompt") [(str_of "prompt", PNone)] = Some PNone)
    by (vm_compute; reflexivity).
  split; [exact H1|]. split; [exact H2|]. split; [reflexivity|].
  exact (non_string_prompt_is_an_error unit Demo.generate Demo.loads tt Demo.line_null
           [(str_of "prompt", PNone)] PNone start H1 H2 eq_refl).
Defined.

(** The line [[1, 2]] is decoded without failure, so there is no
    diagnostic of the decoder; what the line is answered with is the text of
    the [AttributeError] that [.get] raises on a list. *)
Lemma undecodable_line_counterexample :
  Demo.loads Demo.line_array = Ok (PList [PInt 1; PInt 2])
  /\ lines (text (stdout (snd (demo_handle Demo.line_array start))))
     = [error_json (str_of "'list' object has no attribute 'get'")]
  /\ gen_calls (snd (demo_handle Demo.line_array start)) = [].
Proof. repeat split; vm_compute; reflexivity. Qed.

(** The line [[1, 2]] is JSON and not an object; the line after it is
    still handled. *)
Lemma undecodable_line_is_answered_witness :
  ((exists e, Demo.loads Demo.line_array = Raise e)
   \/ (exists v, Demo.loads Demo.line_array = Ok v /\ is_dict v = false))
  /\ exists e,
       (Demo.loads Demo.line_array = Raise e
        \/ exists v, Demo.loads Demo.line_array = Ok v
                     /\ e = AttributeError (type_name v) "get")
       /\ demo_body Demo.line_array (snd (line_pulled start))
          = (Raise e, snd (line_pulled start))
       /\ demo_handle Demo.line_array (snd (line_pulled start))
          = (Ok tt, after_print (error_json (exc_str e)) (snd (line_pulled start)))
       /\ text (stdout (snd (demo_handle Demo.line_array (snd (line_pulled start)))))
          = text (stdout start) ++ error_json (exc_str e) ++ [LF]
       /\ gen_calls (snd (demo_handle Demo.line_array (snd (line_pulled start))))
          = gen_calls start
       /\ demo_loop (Line Demo.line_array :: [Line Demo.line_market]) start
          = demo_loop [Line Demo.line_market]
              (after_print (error_json (exc_str e)) (snd (line_pulled start))).
Proof.
  assert (H : (exists e, Demo.loads Demo.line_array = Raise e)
              \/ (exists v, Demo.loads Demo.line_array = Ok v /\ is_dict v = false)).
  { right. exists (PList [PInt 1; PInt 2]). split; vm_compute; reflexivity. }
  split; [exact H|].
  exact (undecodable_line_is_answered unit Demo.generate Demo.loads tt Demo.line_array
           [Line Demo.line_market] start H).
Defined.

(** The prompt of the first scenario: one call, and its text comes back. *)
Lemma generation_is_called_once_witness :
  Demo.loads Demo.line_market
  = Ok (PDict [(str_of "prompt", PStr (str_of "The stock market"))])
  /\ strip (str_of "The stock market") <> []
  /\ gen_calls (snd (demo_handle Demo.line_market start))
     = gen_calls start ++ [GenCall (strip (str_of "The stock market")) 128 1]
  /\ (forall first others t,
        Demo.generate tt (gen_calls start) (strip (str_of "The stock market")) 128%Z 1%Z
        = Ok (first :: others) ->
        dict_lookup (str_of "generated_text") first = Some t ->
        fst (demo_handle Demo.line_market start) = Ok tt
        /\ stdout (snd (demo_handle Demo.line_market start))
           = print (result_json t) (stdout start)
        /\ text (stdout (snd (demo_handle Demo.line_market start)))
           = text (stdout start) ++ result_json t ++ [LF])
  /\ (Demo.generate tt (gen_calls start) (strip (str_of "The stock market")) 128%Z 1%Z
      = Ok [] ->
        fst (demo_handle Demo.line_market start) = Ok tt
        /\ stdout (snd (demo_handle Demo.line_market start))
           = print (result_json []) (stdout start)
        /\ text (stdout (snd (demo_handle Demo.line_market start)))
           = text (stdout start) ++ result_json [] ++ [LF]).
Proof.
  assert (H1 : Demo.loads Demo.line_market
               = Ok (PDict [(str_of "prompt", PStr (str_of "The stock market"))]))
    by (vm_compute; reflexivity).
  assert (H2 : strip (str_of "The stock market") <> [])
    by (vm_compute; discriminate).
  split; [exact H1|]. split; [exact H2|].
  exact (generation_is_called_once_with_fixed_parameters
           unit Demo.generate Demo.loads tt Demo.line_market
           [(str_of "prompt", PStr (str_of "The stock market"))]
           (str_of "The stock market") start H1 eq_refl H2).
Defined.

(** What the line of the first scenario is answered with. *)
Example market_line_answer :
  lines (text (stdout (snd (demo_handle Demo.line_market start))))
  = [result_json (str_of "The stock market is up")].
Proof. vm_compute. reflexivity. Qed.

(** No candidate at all is still a success. *)
Example no_candidate_answer :
  lines (text (stdout (snd (demo_handle Demo.line_quiet start)))) = [result_json []].
Proof. vm_compute. reflexivity. Qed.

(** The loaders fail with "resource unavailable" (scenario 4). *)
Lemma load_failure_is_fatal_witness :
  fst (load Demo.load_unavailable Demo.load_model Demo.make_pipeline start)
  = Raise (Exception "OSError" (str_of "resource unavailable"))
  /\ fst (run Demo.load_unavailable Demo.load_model Demo.make_pipeline
            Demo.generate Demo.loads [Line Demo.line_market] start) = 1%Z
  /\ lines (received (stdout (snd
       (run Demo.load_unavailable Demo.load_model Demo.make_pipeline
          Demo.generate Demo.loads [Line Demo.line_market] start))))
     = [fatal_json (str_of "resource unavailable")]
  /\ lines_read (snd
       (run Demo.load_unavailable Demo.load_model Demo.make_pipeline
          Demo.generate Demo.loads [Line Demo.line_market] start)) = 0%nat.
Proof.
  assert (H : fst (load Demo.load_unavailable Demo.load_model Demo.make_pipeline start)
              = Raise (Exception "OSError" (str_of "resource unavailable")))
    by reflexivity.
  split; [exact H|].
  pose proof (load_failure_is_fatal unit unit unit
                Demo.load_unavailable Demo.load_model Demo.make_pipeline
                Demo.generate Demo.loads false 8192%N [Line Demo.line_market]
                (Exception "OSError" (str_of "resource unavailable")) H) as P.
  cbv zeta in P. destruct P as (P1 & _ & P3 & P4 & _).
  split; [exact P1|]. split; [exact P3 | exact P4].
Defined.


(** A candidate without [generated_text]: a [KeyError], which is neither a
    parse error nor a validation failure nor a failure of the generator. *)
Lemma per_line_failure_is_answered_witness :
  demo_body Demo.line_untitled (snd (line_pulled start))
  = (Raise (KeyError "generated_text"),
     World 1 (stdout start) (stderr start) [GenCall (str_of "untitled") 128 1])
  /\ handle_line Demo.generate Demo.loads tt Demo.line_untitled (snd (line_pulled start))
     = (Ok tt, after_print (error_json (str_of "'generated_text'"))
                 (World 1 (stdout start) (stderr start)
                    [GenCall (str_of "untitled") 128 1]))
  /\ demo_loop (Line Demo.line_untitled :: [Line Demo.line_market]) start
     = demo_loop [Line Demo.line_market]
         (after_print (error_json (str_of "'generated_text'"))
            (World 1 (stdout start) (stderr start)
               [GenCall (str_of "untitled") 128 1])).
Proof.
  assert (H : demo_body Demo.line_untitled (snd (line_pulled start))
              = (Raise (KeyError "generated_text"),
                 World 1 (stdout start) (stderr start)
                   [GenCall (str_of "untitled") 128 1]))
    by (vm_compute; reflexivity).
  split; [exact H|].
  destruct (per_line_failure_is_answered unit Demo.generate Demo.loads tt
              Demo.line_untitled [Line Demo.line_market] start _ _ H)
    as (_ & P2 & _ & P4 & _).
  split; [exact P2 | exact P4].
Defined.


(** On a pipe, 342 answers of 24 characters: the first 341 are handed
    over together when the 342nd finds no room, and the 342nd is kept. *)
Example pipe_hands_over_when_full :
  map (fun c => N.of_nat (length c))
    (chunks (Nat.iter 342 (print (repeat 120%N 23)) Demo.piped)) = [8184%N]
  /\ length (pending (Nat.iter 342 (print (repeat 120%N 23)) Demo.piped)) = 24%nat
  /\ chunks (Nat.iter 341 (print (repeat 120%N 23)) Demo.piped) = [].
Proof. repeat split; vm_compute; reflexivity. Qed.

(** On a terminal each answer is handed over as soon as it is printed. *)
Example emit_on_terminal :
  chunks (stdout (snd (run Demo.load_tokenizer Demo.load_model Demo.make_pipeline
                         Demo.generate Demo.loads
                         [Line Demo.line_empty; Line Demo.line_market]
                         (initial_world Demo.terminal))))
  = [prompt_required_json ++ [LF];
     result_json (str_of "The stock market is up") ++ [LF]].
Proof. vm_compute. reflexivity. Qed.

(** One line is answered, then the stream fails (the bytes are not UTF-8). *)
Lemma stream_failure_witness :
  fst (demo_load start) = Ok tt
  /\ fst (demo_run (map Line [Demo.line_market]
                      ++ ReadError Demo.bad_bytes :: [Line Demo.line_empty]) start) = 1%Z
  /\ lines (received (stdout (snd
       (demo_run (map Line [Demo.line_market]
                    ++ ReadError Demo.bad_bytes :: [Line Demo.line_empty]) start))))
     = lines (received (stdout (snd (demo_run (map Line [Demo.line_market]) start))))
       ++ [fatal_json (exc_str Demo.bad_bytes)]
  /\ lines_read (snd
       (demo_run (map Line [Demo.line_market]
                    ++ ReadError Demo.bad_bytes :: [Line Demo.line_empty]) start)) = 1%nat.
Proof.
  assert (H : fst (demo_load start) = Ok tt) by reflexivity.
  split; [exact H|].
  pose proof (stream_failure_reported_as_load_failure unit unit unit
                Demo.load_tokenizer Demo.load_model Demo.make_pipeline
                Demo.generate Demo.loads false 8192%N tt
                [Demo.line_market] Demo.bad_bytes [Line Demo.line_empty] H) as P.
  cbv zeta in P. destruct P as (P1 & _ & P3 & _ & P5 & _).
  split; [exact P1|]. split; [exact P3 | exact P5].
Defined.

End Instances.

(* ================================================================== *)
(** ** Further instances in the [Demo] environment *)

Section FurtherInstances.

Local Open Scope string_scope.
Local Open Scope list_scope.
Import Stream.

Local Abbreviation demo_handle := (handle_line Demo.generate Demo.loads tt).
Local Abbreviation demo_loop := (read_loop Demo.generate Demo.loads tt).
Local Abbreviation start := (initial_world Demo.piped).

(** The generator runs out of memory on the prompt [boom]. *)
Lemma generator_failure_is_answered_witness :
  Demo.loads Demo.line_boom = Ok (PDict [(str_of "prompt", PStr (str_of "boom"))])
  /\ strip (str_of "boom") <> []
  /\ Demo.generate tt (gen_calls start) (strip (str_of "boom")) 128%Z 1%Z
     = Raise (Exception "RuntimeError" (str_of "out of memory"))
  /\ demo_handle Demo.line_boom (snd (line_pulled start))
     = (Ok tt, World 1 (print (error_json (str_of "out of memory")) (stdout start))
                 (stderr start) [GenCall (strip (str_of "boom")) 128 1])
  /\ text (stdout (snd (demo_handle Demo.line_boom (snd (line_pulled start)))))
     = text (stdout start) ++ error_json (str_of "out of memory") ++ [LF]
  /\ demo_loop (Line Demo.line_boom :: [Line Demo.line_market]) start
     = demo_loop [Line Demo.line_market]
         (World 1 (print (error_json (str_of "out of memory")) (stdout start))
            (stderr start) [GenCall (strip (str_of "boom")) 128 1]).
Proof.
  assert (H1 : Demo.loads Demo.line_boom
               = Ok (PDict [(str_of "prompt", PStr (str_of "boom"))]))
    by (vm_compute; reflexivity).
  assert (H2 : strip (str_of "boom") <> []) by (vm_compute; discriminate).
  assert (H3 : Demo.generate tt (gen_calls start) (strip (str_of "boom")) 128%Z 1%Z
               = Raise (Exception "RuntimeError" (str_of "out of memory")))
    by (vm_compute; reflexivity).
  split; [exact H1|]. split; [exact H2|]. split; [exact H3|].
  exact (generator_failure_is_answered unit Demo.generate Demo.loads tt
           Demo.line_boom [Line Demo.line_market]
           [(str_of "prompt", PStr (str_of "boom"))] (str_of "boom")
           (Exception "RuntimeError" (str_of "out of memory")) start
           H1 eq_refl H2 H3).
Defined.

(** The generator returns a candidate that holds a score and no text. *)
Lemma candidate_without_text_witness :
  Demo.loads Demo.line_untitled
  = Ok (PDict [(str_of "prompt", PStr (str_of "untitled"))])
  /\ strip (str_of "untitled") <> []
  /\ Demo.generate tt (gen_calls start) (strip (str_of "untitled")) 128%Z 1%Z
     = Ok ([(str_of "score", str_of "1")] :: [])
  /\ demo_handle Demo.line_untitled start
     = (Ok tt, World 0 (print (error_json (str_of "'generated_text'")) (stdout start))
                 (stderr start) [GenCall (strip (str_of "untitled")) 128 1])
  /\ text (stdout (snd (demo_handle Demo.line_untitled start)))
     = text (stdout start) ++ error_json (str_of "'generated_text'") ++ [LF].
Proof.
  assert (H1 : Demo.loads Demo.line_untitled
               = Ok (PDict [(str_of "prompt", PStr (str_of "untitled"))]))
    by (vm_compute; reflexivity).
  assert (H2 : strip (str_of "untitled") <> []) by (vm_compute; discriminate).
  assert (H3 : Demo.generate tt (gen_calls start) (strip (str_of "untitled")) 128%Z 1%Z
               = Ok ([(str_of "score", str_of "1")] :: []))
    by (vm_compute; reflexivity).
  split; [exact H1|]. split; [exact H2|]. split; [exact H3|].
  exact (candidate_without_text_is_an_error unit Demo.generate Demo.loads tt
           Demo.line_untitled [(str_of "prompt", PStr (str_of "untitled"))]
           (str_of "untitled") [(str_of "score", str_of "1")] [] start
           H1 eq_refl H2 H3 eq_refl).
Defined.

(** The empty prompt: no call, and an error. *)
Lemma no_result_without_generation_witness :
  gen_calls (snd (demo_handle Demo.line_empty start)) = gen_calls start
  /\ exists m,
       stdout (snd (demo_handle Demo.line_empty start))
       = print (error_json m) (stdout start)
       /\ text (stdout (snd (demo_handle Demo.line_empty start)))
          = text (stdout start) ++ error_json m ++ [LF].
Proof.
  assert (H : gen_calls (snd (demo_handle Demo.line_empty start)) = gen_calls start)
    by (vm_compute; reflexivity).
  split; [exact H|].
  exact (no_result_without_generation unit Demo.generate Demo.loads tt
           Demo.line_empty start H).
Defined.

(** A text with a line break, a quote, an accent and a character outside
    the basic plane. *)
Lemma answer_can_be_read_back_witness :
  forallb scalar [10; 34; 233; 0x1F600]%N = true
  /\ json_dumps [(str_of "result", [10; 34; 233; 0x1F600]%N)]
     = json_dumps [(str_of "result", [10; 34; 233; 0x1F600]%N)]
  /\ str_of "result" = str_of "result"
  /\ [10; 34; 233; 0x1F600]%N = [10; 34; 233; 0x1F600]%N.
Proof.
  assert (H : forallb scalar [10; 34; 233; 0x1F600]%N = true) by reflexivity.
  split; [exact H|]. split; [reflexivity|].
  exact (answer_can_be_read_back (str_of "result") (str_of "result")
           [10; 34; 233; 0x1F600]%N [10; 34; 233; 0x1F600]%N
           (or_introl eq_refl) (or_introl eq_refl) H H eq_refl).
Defined.

(** Why the texts must be made of scalar values: a pair of lone surrogates
    is written like the character the pair stands for. *)
Example lone_surrogates_collide :
  str_eqb [0xD83D; 0xDE00]%N [0x1F600]%N = false
  /\ result_json [0xD83D; 0xDE00]%N = result_json [0x1F600]%N.
Proof. split; vm_compute; reflexivity. Qed.

(** Two lines on a terminal. *)
Lemma line_buffered_answers_witness :
  line_buffering (stdout (initial_world Demo.terminal)) = true
  /\ pending (stdout (initial_world Demo.terminal)) = []
  /\ pending (stdout (snd (demo_loop (map Line [Demo.line_empty; Demo.line_market])
                             (initial_world Demo.terminal)))) = []
  /\ received (stdout (snd (demo_loop (map Line [Demo.line_empty; Demo.line_market])
                              (initial_world Demo.terminal))))
     = text (stdout (snd (demo_loop (map Line [Demo.line_empty; Demo.line_market])
                            (initial_world Demo.terminal))))
  /\ line_buffering (stdout (snd (demo_loop
                                    (map Line [Demo.line_empty; Demo.line_market])
                                    (initial_world Demo.terminal)))) = true.
Proof.
  split; [reflexivity|]. split; [reflexivity|].
  exact (line_buffered_answers_arrive_at_once unit Demo.generate Demo.loads tt
           [Demo.line_empty; Demo.line_market] (initial_world Demo.terminal)
           eq_refl eq_refl).
Defined.

End FurtherInstances.
